(** * DriftOS client: the transport and the prompt assembler of [client.ts]

    A shallow embedding of [src/client.ts].  JavaScript strings are
    sequences of UTF-16 code units, values of unknown type are JSON-like
    trees, and the asynchronous [request] is a computation over an explicit
    run-time state (timers, abort controllers, the calls seen by the network
    layer) whose result is a returned value, a thrown exception, or a
    promise that never settles. *)

From Stdlib Require Import List NArith ZArith Bool String Ascii.
From Stdlib Require Import DecimalString.
Import ListNotations.

Set Implicit Arguments.
Set Warnings "-register-all".
Open Scope N_scope.

(** ** JavaScript strings *)

Module JsString.

(** A string is its sequence of UTF-16 code units. *)
Definition code_unit := N.
Definition jsstring := list code_unit.

(** An ASCII literal of the source, as code units. *)
Definition lit (s : string) : jsstring :=
  map N_of_ascii (list_ascii_of_string s).

(** The line feed written [\n] in the source. *)
Definition LF : jsstring := [10].

(** [a === b] on strings. *)
Fixpoint eqb (a b : jsstring) : bool :=
  match a, b with
  | [], [] => true
  | x :: a', y :: b' => (x =? y) && eqb a' b'
  | _, _ => false
  end.

(** [WhiteSpace] and [LineTerminator] of ECMAScript, the code units that
    [String.prototype.trim] removes. *)
Definition is_white (c : code_unit) : bool :=
  (c =? 9) || (c =? 10) || (c =? 11) || (c =? 12) || (c =? 13)
  || (c =? 32) || (c =? 160) || (c =? 5760)
  || ((8192 <=? c) && (c <=? 8202))
  || (c =? 8232) || (c =? 8233) || (c =? 8239) || (c =? 8287)
  || (c =? 12288) || (c =? 65279).

Definition nonwhite (c : code_unit) : bool := negb (is_white c).

Fixpoint trimStart (s : jsstring) : jsstring :=
  match s with
  | c :: s' => if is_white c then trimStart s' else s
  | [] => []
  end.

Definition trimEnd (s : jsstring) : jsstring :=
  rev (trimStart (rev s)).

(** [s.trim()] *)
Definition trim (s : jsstring) : jsstring := trimEnd (trimStart s).

(** [xs.join(sep)] on an array of strings. *)
Fixpoint join (sep : jsstring) (xs : list jsstring) : jsstring :=
  match xs with
  | [] => []
  | [x] => x
  | x :: rest => x ++ sep ++ join sep rest
  end.

(** [s.startsWith(p)] *)
Fixpoint startsWith (p s : jsstring) : bool :=
  match p, s with
  | [], _ => true
  | a :: p', b :: s' => (a =? b) && startsWith p' s'
  | _ :: _, [] => false
  end.

(** [s.includes(p)] *)
Fixpoint includes (p s : jsstring) : bool :=
  startsWith p s ||
  match s with
  | [] => false
  | _ :: s' => includes p s'
  end.

(** [s.replace(/\/$/, '')]: the pattern matches one slash at the very end
    of the input, and only the first match is replaced. *)
Fixpoint dropLastSlash (s : jsstring) : jsstring :=
  match s with
  | [] => []
  | [c] => if c =? 47 then [] else [c]
  | c :: s' => c :: dropLastSlash s'
  end.

(** Decimal digits of a non-negative integer, as [String(n)] prints it. *)
Definition decimal (n : N) : jsstring :=
  lit (NilZero.string_of_uint (N.to_uint n)).

End JsString.
Import JsString.

(** ** Values of unknown type

    What [JSON.parse] produces and what may be passed as a request body,
    with [undefined] for an absent argument or field.  Numbers are kept
    abstract: the client only ever tests them for truthiness. *)

Inductive jsval (number : Type) : Type :=
| VUndefined
| VNull
| VBool (b : bool)
| VNum (n : number)
| VStr (s : jsstring)
| VArr (items : list (jsval number))
| VObj (fields : list (jsstring * jsval number)).

Arguments VUndefined {number}.
Arguments VNull {number}.
Arguments VBool {number} b.
Arguments VStr {number} s.

(** ** The data model

    [types.ts], which declares [DriftConfig], [Context], [Fact] and the other
    interfaces, is absent; the fields below are the ones [client.ts] reads,
    the README lists and the spec names.  Whatever else a fact or a message
    carries is the type parameter [R]. *)

(** Modelled from the spec: the interface [DriftConfig] of the absent
    [types.ts], with the four options of the README. *)
Module Config.
Record DriftConfig : Type := {
  baseUrl : jsstring;
  apiKey : option jsstring;
  timeout : option Z;
  hosted : option bool
}.
End Config.

(** Modelled from the spec: the interface [Fact] of the absent [types.ts]. *)
Module Fact.
Record t (R : Type) : Type := {
  key : jsstring;
  value : jsstring;
  rest : R
}.
End Fact.

(** [{ key: f.key, value: f.value }] *)
Module KeyValue.
Record t : Type := { key : jsstring; value : jsstring }.
End KeyValue.

(** Modelled from the spec: an element of [Context.allFacts], declared in the
    absent [types.ts]. *)
Module BranchFactSet.
Record t (R : Type) : Type := {
  branchId : jsstring;
  branchTopic : jsstring;
  isCurrent : bool;
  facts : list (Fact.t R)
}.
End BranchFactSet.

(** Modelled from the spec: an element of [Context.messages], declared in the
    absent [types.ts]. *)
Module Message.
Record t (R : Type) : Type := {
  role : jsstring;
  content : jsstring;
  rest : R
}.
End Message.

(** [{ role: m.role, content: m.content }] *)
Module RoleContent.
Record t : Type := { role : jsstring; content : jsstring }.
End RoleContent.

(** Modelled from the spec: the interface [Context] of the absent
    [types.ts]. *)
Module Context.
Record t (FR MR : Type) : Type := {
  branchTopic : jsstring;
  messages : list (Message.t MR);
  allFacts : list (BranchFactSet.t FR)
}.
End Context.

(** The argument of a custom template. *)
Module TemplateContext.
Record t : Type := {
  systemPrompt : jsstring;
  branchTopic : jsstring;
  facts : list KeyValue.t;
  otherTopics : list jsstring
}.
End TemplateContext.

(** The options object of [buildPrompt]; [None] is an absent field. *)
Module Options.
Record t : Type := {
  systemPrompt : option jsstring;
  includeOtherTopics : option bool;
  includeFacts : option bool;
  factsFromAllBranches : option bool;
  template : option (TemplateContext.t -> jsstring)
}.

(** [{}] *)
Definition empty : t :=
  {| systemPrompt := None; includeOtherTopics := None; includeFacts := None;
     factsFromAllBranches := None; template := None |}.
End Options.

(** The second parameter of [buildPrompt]:
    [systemPromptOrOptions?: string | {...}]. *)
Inductive SystemPromptOrOptions : Type :=
| Omitted
| LegacyString (s : jsstring)
| OptionsObject (o : Options.t).

Module Prompt.
Record t : Type := {
  system : jsstring;
  messages : list RoleContent.t
}.
End Prompt.

Inductive Role : Type := user | assistant.

Definition role_string (r : Role) : jsstring :=
  match r with
  | user => lit "user"
  | assistant => lit "assistant"
  end.

(** [class DriftClient]: its three private fields. *)
Record DriftClient : Type := {
  baseUrl : jsstring;
  apiKey : option jsstring;
  timeout : Z
}.

(** [constructor(config)] *)
Definition constructor (config : Config.DriftConfig) : DriftClient :=
  {| baseUrl := dropLastSlash (Config.baseUrl config);
     apiKey := Config.apiKey config;
     timeout := match Config.timeout config with
                | Some t => t
                | None => 10000%Z
                end |}.

(** ** The prompt assembler: [buildPrompt] after the context has arrived *)

Section Assembler.

Variables FR MR : Type.

Abbreviation Context := (Context.t FR MR).

(** [typeof systemPromptOrOptions === 'string'
      ? { systemPrompt: systemPromptOrOptions }
      : systemPromptOrOptions ?? {}] *)
Definition options (systemPromptOrOptions : SystemPromptOrOptions)
  : Options.t :=
  match systemPromptOrOptions with
  | LegacyString s =>
      {| Options.systemPrompt := Some s;
         Options.includeOtherTopics := None;
         Options.includeFacts := None;
         Options.factsFromAllBranches := None;
         Options.template := None |}
  | OptionsObject o => o
  | Omitted => Options.empty
  end.

(** A destructuring default: it applies when the field is [undefined]. *)
Definition withDefault {A : Type} (field : option A) (dflt : A) : A :=
  match field with
  | Some a => a
  | None => dflt
  end.

Definition systemPrompt (o : Options.t) : jsstring :=
  withDefault (Options.systemPrompt o) (lit "You are a helpful assistant.").
Definition includeOtherTopics (o : Options.t) : bool :=
  withDefault (Options.includeOtherTopics o) true.
Definition includeFacts (o : Options.t) : bool :=
  withDefault (Options.includeFacts o) true.
Definition factsFromAllBranches (o : Options.t) : bool :=
  withDefault (Options.factsFromAllBranches o) false.

Definition keyValue (f : Fact.t FR) : KeyValue.t :=
  {| KeyValue.key := Fact.key f; KeyValue.value := Fact.value f |}.

Definition factsToInclude (ctx : Context) (o : Options.t)
  : list KeyValue.t :=
  if includeFacts o
  then flat_map (fun b => map keyValue (BranchFactSet.facts b))
         (filter (fun b => factsFromAllBranches o || BranchFactSet.isCurrent b)
            (Context.allFacts ctx))
  else [].

Definition otherTopics (ctx : Context) (o : Options.t) : list jsstring :=
  if includeOtherTopics o
  then map (fun b => BranchFactSet.branchTopic b)
         (filter (fun b => negb (BranchFactSet.isCurrent b))
            (Context.allFacts ctx))
  else [].

(** [`- ${f.key}: ${f.value}`] *)
Definition factLine (f : KeyValue.t) : jsstring :=
  lit "- " ++ KeyValue.key f ++ lit ": " ++ KeyValue.value f.

Definition factsBlock (ctx : Context) (o : Options.t) : jsstring :=
  join LF (map factLine (factsToInclude ctx o)).

(** The array [parts] once the three conditional pushes are done. *)
Definition parts (ctx : Context) (o : Options.t) : list jsstring :=
  let parts := [systemPrompt o] in
  let parts := parts ++ [LF ++ lit "Current topic: " ++ Context.branchTopic ctx] in
  let parts :=
    if includeFacts o && negb (eqb (factsBlock ctx o) [])
    then parts ++ [LF ++ lit "Known facts:" ++ LF ++ factsBlock ctx o]
    else parts in
  let parts :=
    if includeOtherTopics o && (0 <? List.length (otherTopics ctx o))%nat
    then parts ++ [LF ++ lit "Other topics discussed: "
                      ++ join (lit ", ") (otherTopics ctx o)]
    else parts in
  parts.

Definition system (ctx : Context) (o : Options.t) : jsstring :=
  match Options.template o with
  | Some template =>
      template
        {| TemplateContext.systemPrompt := systemPrompt o;
           TemplateContext.branchTopic := Context.branchTopic ctx;
           TemplateContext.facts := factsToInclude ctx o;
           TemplateContext.otherTopics := otherTopics ctx o |}
  | None => trim (join [] (parts ctx o))
  end.

Definition messages (ctx : Context) : list RoleContent.t :=
  map (fun m => {| RoleContent.role := Message.role m;
                   RoleContent.content := Message.content m |})
    (Context.messages ctx).

(** Lines 130 to 187 of [buildPrompt]: everything after
    [const ctx = await this.getContext(branchId)]. *)
Definition assemble (ctx : Context)
    (systemPromptOrOptions : SystemPromptOrOptions) : Prompt.t :=
  let o := options systemPromptOrOptions in
  {| Prompt.system := system ctx o; Prompt.messages := messages ctx |}.

End Assembler.

(** ** The run time seen by [request]

    An asynchronous function is run against an explicit state: the timers
    that are armed, the abort controllers that have been aborted and the
    trace of what has happened so far.  Its promise is fulfilled, rejected,
    or never settles. *)

(** The only timer callback of the client: [() => controller.abort()]. *)
Inductive callback : Type :=
| controller_abort (controller : nat).

Record timer : Type := {
  timer_id : nat;
  handler : callback;
  delay : Z
}.

Section Transport.

Variable number : Type.
(** [ToBoolean] on a number: false for [+0], [-0] and [NaN]. *)
Variable number_truthy : number -> bool.

Abbreviation value := (jsval number).

(** [ToBoolean(v)], the test of [if (v)] and [!v]. *)
Definition truthy (v : value) : bool :=
  match v with
  | VUndefined | VNull => false
  | VBool b => b
  | VNum n => number_truthy n
  | VStr s => negb (eqb s [])
  | VArr _ | VObj _ => true
  end.

(** An own property of a parsed object ([undefined] when absent); the keys
    of an object are pairwise distinct. *)
Fixpoint property (k : jsstring) (fields : list (jsstring * value)) : value :=
  match fields with
  | [] => VUndefined
  | (k', v) :: fields' => if eqb k k' then v else property k fields'
  end.

(** [e?.message]: [undefined] on [null] and [undefined]; strings, numbers,
    booleans and arrays have no property of that name. *)
Definition optional_message (e : value) : value :=
  match e with
  | VObj fields => property (lit "message") fields
  | _ => VUndefined
  end.

(** [v ?? d] *)
Definition nullish_or (v d : value) : value :=
  match v with
  | VUndefined | VNull => d
  | _ => v
  end.

(** What a promise can be rejected with.  [Error m] is [new Error(m)]: its
    message is [ToString(m)], which for a string [m] is [m] itself. *)
Inductive exn : Type :=
| Error (message : value)
| TypeError
| SyntaxError
| NetworkError
| AbortError.

Inductive outcome (A : Type) : Type :=
| Returned (a : A)
| Thrown (e : exn)
| Pending.

Arguments Thrown {A} e.
Arguments Pending {A}.

(** The text [JSON.stringify(v)], kept symbolic. *)
Inductive json_text : Type :=
| JSON_stringify (v : value).

(** The second argument of [fetch]. *)
Record RequestInit : Type := {
  method : jsstring;
  headers : list (jsstring * jsstring);
  body : option json_text;
  signal : option nat
}.

(** What happens at run time: a timer is set, fires or is cleared, [fetch]
    is called, the network layer receives the abort of a signal. *)
Inductive event : Type :=
| TimerSet (t : timer)
| TimerFired (id : nat)
| TimerCleared (id : nat)
| FetchCalled (url : jsstring) (init : RequestInit)
| AbortReceived (controller : nat).

Record Runtime : Type := {
  next_id : nat;
  armed : list timer;
  aborted : list nat;
  trace : list event
}.

Definition Async (A : Type) : Type := Runtime -> outcome A * Runtime.

Definition ret {A : Type} (a : A) : Async A := fun rt => (Returned a, rt).

Definition throw {A : Type} (e : exn) : Async A := fun rt => (Thrown e, rt).

(** [await]: the rest runs once the promise is fulfilled. *)
Definition bind {A B : Type} (m : Async A) (k : A -> Async B) : Async B :=
  fun rt =>
    match m rt with
    | (Returned a, rt') => k a rt'
    | (Thrown e, rt') => (Thrown e, rt')
    | (Pending, rt') => (Pending, rt')
    end.

Notation "x <- m ;; k" := (bind m (fun x => k))
  (at level 61, m at next level, right associativity).

(** [try { block } finally { finalizer }]: the finalizer runs when the block
    completes, normally or not; it never runs if the block never completes. *)
Definition try_finally {A : Type} (block : Async A) (finalizer : Async unit)
  : Async A :=
  fun rt =>
    match block rt with
    | (Pending, rt') => (Pending, rt')
    | (completion, rt') =>
        match finalizer rt' with
        | (Returned _, rt'') => (completion, rt'')
        | (Thrown e, rt'') => (Thrown e, rt'')
        | (Pending, rt'') => (Pending, rt'')
        end
    end.

Definition observe (es : list event) (rt : Runtime) : Runtime :=
  {| next_id := next_id rt; armed := armed rt; aborted := aborted rt;
     trace := trace rt ++ es |}.

(** [new AbortController()] *)
Definition new_AbortController : Async nat :=
  fun rt =>
    (Returned (next_id rt),
     {| next_id := S (next_id rt); armed := armed rt;
        aborted := aborted rt; trace := trace rt |}).

(** [setTimeout(handler, delay)] *)
Definition setTimeout (h : callback) (ms : Z) : Async nat :=
  fun rt =>
    let t := {| timer_id := next_id rt; handler := h; delay := ms |} in
    (Returned (next_id rt),
     {| next_id := S (next_id rt);
        armed := t :: armed rt;
        aborted := aborted rt;
        trace := trace rt ++ [TimerSet t] |}).

(** [clearTimeout(id)]: a timer that has fired already is no longer armed,
    and nothing changes. *)
Definition clearTimeout (id : nat) : Async unit :=
  fun rt =>
    (Returned tt,
     {| next_id := next_id rt;
        armed := filter (fun t => negb (Nat.eqb (timer_id t) id)) (armed rt);
        aborted := aborted rt;
        trace := trace rt ++ [TimerCleared id] |}).

Definition run (h : callback) : nat :=
  match h with
  | controller_abort controller => controller
  end.

(** Every armed timer fires: its callback runs and the timer is gone. *)
Definition elapse (rt : Runtime) : Runtime :=
  {| next_id := next_id rt;
     armed := [];
     aborted := map (fun t => run (handler t)) (armed rt) ++ aborted rt;
     trace := trace rt ++ map (fun t => TimerFired (timer_id t)) (armed rt) |}.

Definition is_aborted (controller : nat) (rt : Runtime) : bool :=
  existsb (Nat.eqb controller) (aborted rt).

(** Awaiting network input that does not come: the armed timers fire in the
    meantime; if that aborts the signal of the call, the network layer is told
    and the promise is rejected, otherwise it stays pending for ever. *)
Definition starve {A : Type} (sig : option nat) : Async A :=
  fun rt =>
    let rt := elapse rt in
    match sig with
    | Some controller =>
        if is_aborted controller rt
        then (Thrown AbortError, observe [AbortReceived controller] rt)
        else (Pending, rt)
    | None => (Pending, rt)
    end.

(** The parsed body, as [request] reads it.  [data] is what [data.data as T]
    evaluates to; it is read on the success path only. *)
Record Envelope (T : Type) : Type := {
  success : value;
  data : T;
  error : value
}.

Inductive Parsed (T : Type) : Type :=
| JsonNull
| JsonOther
| JsonObject (e : Envelope T).

Arguments JsonNull {T}.
Arguments JsonOther {T}.

(** What becomes of the body: it never arrives in full, it is not JSON, or
    it parses to [null], to an object, or to another value (a string, a
    number, a boolean or an array, none of which has a property [success],
    [error] or [data]). *)
Inductive Body (T : Type) : Type :=
| BodyStalls
| NotJson
| Json (d : Parsed T).

Arguments BodyStalls {T}.
Arguments NotJson {T}.

Record Reply (T : Type) : Type := {
  ok : bool;
  status : N;
  reply_body : Body T
}.

(** How the network behaves for one call: a reply arrives before the timer
    fires, the call fails before it fires, or nothing arrives. *)
Inductive Network (T : Type) : Type :=
| Responds (r : Reply T)
| Fails
| Silent.

Arguments Fails {T}.
Arguments Silent {T}.

Record Response (T : Type) : Type := {
  reply : Reply T;
  via : option nat
}.

(** [fetch(url, init)] *)
Definition fetch {T : Type} (net : Network T) (url : jsstring)
    (init : RequestInit) : Async (Response T) :=
  fun rt =>
    let rt := observe [FetchCalled url init] rt in
    match net with
    | Responds r => (Returned {| reply := r; via := signal init |}, rt)
    | Fails => (Thrown NetworkError, rt)
    | Silent => starve (signal init) rt
    end.

(** [response.json()] *)
Definition json {T : Type} (response : Response T) : Async (Parsed T) :=
  match reply_body (reply response) with
  | BodyStalls => starve (via response)
  | NotJson => throw SyntaxError
  | Json d => ret d
  end.

(** ** [DriftClient.request] and the operations built on it *)

(** [`Request failed: ${response.status}`] *)
Definition requestFailed (st : N) : value :=
  VStr (lit "Request failed: " ++ decimal st).

(** The [headers] object once both conditional assignments are done. *)
Definition requestHeaders (c : DriftClient) (body : value)
  : list (jsstring * jsstring) :=
  let headers := [] in
  let headers :=
    if truthy body
    then headers ++ [(lit "Content-Type", lit "application/json")]
    else headers in
  let headers :=
    match apiKey c with
    | Some key =>
        if truthy (VStr key)
        then headers ++ [(lit "Authorization", lit "Bearer " ++ key)]
        else headers
    | None => headers
    end in
  headers.

(** Lines 49 to 53: the checks on the parsed body, the [data] of the
    source.  With [data] equal to
    [null] the first property read throws ([data.success], or [data.error]
    when [response.ok] is false); on a value without properties [data.success]
    and [data.error?.message] are both [undefined]. *)
Definition unwrap {T : Type} (response : Response T) (parsed : Parsed T)
  : Async T :=
  match parsed with
  | JsonNull => throw TypeError
  | JsonOther => throw (Error (requestFailed (status (reply response))))
  | JsonObject e =>
      if negb (ok (reply response)) || negb (truthy (success e))
      then throw (Error (nullish_or (optional_message (error e))
                           (requestFailed (status (reply response)))))
      else ret (data e)
  end.

(** [private async request<T>(method, path, body?)]; an omitted [body] is
    [VUndefined]. *)
Definition request {T : Type} (c : DriftClient) (net : Network T)
    (method path : jsstring) (body : value) : Async T :=
  controller <- new_AbortController ;;
  timeoutId <- setTimeout (controller_abort controller) (timeout c) ;;
  let headers := requestHeaders c body in
  try_finally
    (response <- fetch net (baseUrl c ++ path)
                   {| method := method;
                      headers := headers;
                      body := if truthy body
                              then Some (JSON_stringify body)
                              else None;
                      signal := Some controller |} ;;
     parsed <- json response ;;
     unwrap response parsed)
    (clearTimeout timeoutId).

(** Modelled from the spec: the result types [RouteResult], [Branch] and
    [FactsResult] of the absent [types.ts]; the client passes them through
    unread. *)
Variables RouteResult Branch FactsResult : Type.
Variables FR MR : Type.

Definition route (c : DriftClient) (net : Network RouteResult)
    (conversationId content : jsstring) (role : option Role)
  : Async RouteResult :=
  let role := withDefault role user in
  request c net (lit "POST") (lit "/api/v1/drift/route")
    (VObj [ (lit "conversationId", VStr conversationId);
            (lit "content", VStr content);
            (lit "role", VStr (role_string role)) ]).

Definition getBranches (c : DriftClient) (net : Network (list Branch))
    (conversationId : jsstring) : Async (list Branch) :=
  request c net (lit "GET") (lit "/api/v1/drift/branches/" ++ conversationId)
    VUndefined.

Definition getContext (c : DriftClient) (net : Network (Context.t FR MR))
    (branchId : jsstring) : Async (Context.t FR MR) :=
  request c net (lit "GET") (lit "/api/v1/context/" ++ branchId) VUndefined.

Definition extractFacts (c : DriftClient) (net : Network FactsResult)
    (branchId : jsstring) : Async FactsResult :=
  request c net (lit "POST")
    (lit "/api/v1/facts/" ++ branchId ++ lit "/extract") VUndefined.

Definition getFacts (c : DriftClient) (net : Network (list (Fact.t FR)))
    (branchId : jsstring) : Async (list (Fact.t FR)) :=
  request c net (lit "GET") (lit "/api/v1/facts/" ++ branchId) VUndefined.

Definition buildPrompt (c : DriftClient) (net : Network (Context.t FR MR))
    (branchId : jsstring) (systemPromptOrOptions : SystemPromptOrOptions)
  : Async Prompt.t :=
  ctx <- getContext c net branchId ;;
  ret (assemble ctx systemPromptOrOptions).

End Transport.


Arguments Returned {number A} a.
Arguments Thrown {number A} e.
Arguments Pending {number A}.
Arguments TypeError {number}.
Arguments SyntaxError {number}.
Arguments NetworkError {number}.
Arguments AbortError {number}.
Arguments JsonNull {number T}.
Arguments JsonOther {number T}.
Arguments BodyStalls {number T}.
Arguments NotJson {number T}.
Arguments Fails {number T}.
Arguments Silent {number T}.
Arguments TimerSet {number} t.
Arguments TimerFired {number} id.
Arguments TimerCleared {number} id.
Arguments AbortReceived {number} controller.

(** ** The code on values as they arrive

    [data.data as T] is a cast that checks nothing: what [buildPrompt] and
    the checks of [request] work on is whatever JSON value the server sent.
    Here they run on such values, every property read being one that can
    throw. *)

Section Untyped.

Variable number : Type.
Variable number_truthy : number -> bool.
(** [ToString] on a number. *)
Variable number_toString : number -> jsstring.

Abbreviation value := (jsval number).
Abbreviation result := (outcome number).

(** The rest of a computation, run on the value of its first part. *)
Definition and_then {A B : Type} (o : result A) (k : A -> result B)
  : result B :=
  match o with
  | Returned a => k a
  | Thrown e => Thrown e
  | Pending => Pending
  end.

Notation "x <- m ;; k" := (and_then m (fun x => k))
  (at level 61, m at next level, right associativity).

(** [v.k] for a name [k] that is no built-in property of strings, numbers,
    booleans and arrays, as is every name that [client.ts] reads: on
    [undefined] and [null] the read throws, on an object it gives the own
    property or [undefined], and on anything else [undefined]. *)
Definition get (v : value) (k : jsstring) : result value :=
  match v with
  | VUndefined | VNull => Thrown TypeError
  | VObj fields => Returned (property k fields)
  | _ => Returned VUndefined
  end.

(** The receiver of [.filter(...)], [.map(...)] or [.flatMap(...)]: on
    [undefined] and [null] reading the method throws, and on any other value
    that is not an array the method is not a function. *)
Definition as_array (v : value) : result (list value) :=
  match v with
  | VArr items => Returned items
  | _ => Thrown TypeError
  end.

(** [items.filter(keep)] and [items.map(f)] with callbacks that can throw. *)
Fixpoint filter_with (keep : value -> result bool) (items : list value)
  : result (list value) :=
  match items with
  | [] => Returned []
  | x :: items' =>
      kept <- keep x ;;
      rest <- filter_with keep items' ;;
      Returned (if kept then x :: rest else rest)
  end.

Fixpoint map_with {B : Type} (f : value -> result B) (items : list value)
  : result (list B) :=
  match items with
  | [] => Returned []
  | x :: items' =>
      y <- f x ;;
      rest <- map_with f items' ;;
      Returned (y :: rest)
  end.

Definition has_own (k : jsstring) (fields : list (jsstring * value)) : bool :=
  existsb (fun kv => eqb k (fst kv)) fields.

(** [ToString(v)], as a template literal applies it.  An array is its
    elements joined by commas, [undefined] and [null] among them counting as
    empty; an object is [[object Object]], unless it has a property
    [toString] of its own, which no parsed value can call. *)
Fixpoint toString (v : value) : result jsstring :=
  match v with
  | VUndefined => Returned (lit "undefined")
  | VNull => Returned (lit "null")
  | VBool true => Returned (lit "true")
  | VBool false => Returned (lit "false")
  | VNum n => Returned (number_toString n)
  | VStr s => Returned s
  | VArr items =>
      let fix elements (l : list value) : result (list jsstring) :=
        match l with
        | [] => Returned []
        | x :: l' =>
            s <- match x with
                 | VUndefined | VNull => Returned []
                 | _ => toString x
                 end ;;
            ss <- elements l' ;;
            Returned (s :: ss)
        end in
      ss <- elements items ;;
      Returned (join (lit ",") ss)
  | VObj fields =>
      if has_own (lit "toString") fields
      then Thrown TypeError
      else Returned (lit "[object Object]")
  end.

(** [items.join(sep)] on an array of any values. *)
Definition array_join (sep : jsstring) (items : list value)
  : result jsstring :=
  ss <- map_with (fun x => match x with
                           | VUndefined | VNull => Returned []
                           | _ => toString x
                           end) items ;;
  Returned (join sep ss).

(** What [buildPrompt] returns, its messages as the objects they are. *)
Record JsonPrompt : Type := {
  json_system : jsstring;
  json_messages : list value
}.

(** Lines 143 to 187 of [buildPrompt] on the value [ctx], the options
    already destructured at lines 135 to 141 into [o]; [template] is the
    template as a function of the object it is handed. *)
Definition assemble_json (ctx : value) (o : Options.t)
    (template : option (value -> jsstring)) : result JsonPrompt :=
  factsToInclude <-
    (if includeFacts o
     then
       allFacts <- get ctx (lit "allFacts") ;;
       sets <- as_array allFacts ;;
       kept <- filter_with
                 (fun b =>
                    if factsFromAllBranches o
                    then Returned true
                    else isCurrent <- get b (lit "isCurrent") ;;
                         Returned (truthy number_truthy isCurrent))
                 sets ;;
       nested <- map_with
                   (fun b =>
                      facts <- get b (lit "facts") ;;
                      fs <- as_array facts ;;
                      map_with
                        (fun f =>
                           key <- get f (lit "key") ;;
                           value <- get f (lit "value") ;;
                           Returned (VObj [(lit "key", key);
                                           (lit "value", value)]))
                        fs)
                   kept ;;
       Returned (List.concat nested)
     else Returned []) ;;
  otherTopics <-
    (if includeOtherTopics o
     then
       allFacts <- get ctx (lit "allFacts") ;;
       sets <- as_array allFacts ;;
       kept <- filter_with
                 (fun b =>
                    isCurrent <- get b (lit "isCurrent") ;;
                    Returned (negb (truthy number_truthy isCurrent)))
                 sets ;;
       map_with (fun b => get b (lit "branchTopic")) kept
     else Returned []) ;;
  system <-
    match template with
    | Some template =>
        branchTopic <- get ctx (lit "branchTopic") ;;
        Returned (template
                    (VObj [(lit "systemPrompt", VStr (systemPrompt o));
                           (lit "branchTopic", branchTopic);
                           (lit "facts", VArr factsToInclude);
                           (lit "otherTopics", VArr otherTopics)]))
    | None =>
        lines <- map_with
                   (fun f =>
                      key <- get f (lit "key") ;;
                      key <- toString key ;;
                      value <- get f (lit "value") ;;
                      value <- toString value ;;
                      Returned (lit "- " ++ key ++ lit ": " ++ value))
                   factsToInclude ;;
        let factsBlock := join LF lines in
        branchTopic <- get ctx (lit "branchTopic") ;;
        branchTopic <- toString branchTopic ;;
        let parts := [systemPrompt o] in
        let parts := parts ++ [LF ++ lit "Current topic: " ++ branchTopic] in
        let parts :=
          if includeFacts o && negb (eqb factsBlock [])
          then parts ++ [LF ++ lit "Known facts:" ++ LF ++ factsBlock]
          else parts in
        parts <-
          (if includeOtherTopics o && (0 <? List.length otherTopics)%nat
           then joined <- array_join (lit ", ") otherTopics ;;
                Returned (parts ++ [LF ++ lit "Other topics discussed: "
                                       ++ joined])
           else Returned parts) ;;
        Returned (trim (join [] parts))
    end ;;
  messages <- get ctx (lit "messages") ;;
  messages <- as_array messages ;;
  messages <- map_with
                (fun m =>
                   role <- get m (lit "role") ;;
                   content <- get m (lit "content") ;;
                   Returned (VObj [(lit "role", role);
                                   (lit "content", content)]))
                messages ;;
  Returned {| json_system := system; json_messages := messages |}.

(** Lines 49 to 53 of [request] on the parsed body [data], for a response
    with the given [ok] and [status]. *)
Definition unwrap_json (ok : bool) (status : N) (data : value)
  : result value :=
  failed <-
    (if negb ok
     then Returned true
     else success <- get data (lit "success") ;;
          Returned (negb (truthy number_truthy success))) ;;
  if (failed : bool)
  then error <- get data (lit "error") ;;
       Thrown (Error (nullish_or (optional_message error)
                        (requestFailed number status)))
  else get data (lit "data").

End Untyped.

(** ** Values of the declared shapes, as JSON

    The object that carries exactly the declared fields of a typed value. *)

Section Shapes.

Variable number : Type.
Variables FR MR : Type.








End Shapes.

(** ** The prompt as the specification words it *)

Section Specification.

Variables FR : Type.

Definition isEmpty {A : Type} (l : list A) : bool :=
  match l with
  | [] => true
  | _ :: _ => false
  end.

(** Step 2: the sets that pass, one branch after the other, each
    contributing its facts in order as key and value only. *)
Fixpoint spec_pairs (fs : list (Fact.t FR)) : list KeyValue.t :=
  match fs with
  | [] => []
  | f :: fs' =>
      {| KeyValue.key := Fact.key f; KeyValue.value := Fact.value f |}
        :: spec_pairs fs'
  end.

Fixpoint spec_selectFacts (fromAll : bool) (sets : list (BranchFactSet.t FR))
  : list KeyValue.t :=
  match sets with
  | [] => []
  | b :: sets' =>
      if fromAll || BranchFactSet.isCurrent b
      then spec_pairs (BranchFactSet.facts b) ++ spec_selectFacts fromAll sets'
      else spec_selectFacts fromAll sets'
  end.

(** Step 3: the topic of every set that is not current, in order. *)
Fixpoint spec_topics (sets : list (BranchFactSet.t FR)) : list jsstring :=
  match sets with
  | [] => []
  | b :: sets' =>
      if BranchFactSet.isCurrent b
      then spec_topics sets'
      else BranchFactSet.branchTopic b :: spec_topics sets'
  end.

(** Step 5, third item. *)
Definition spec_knownFacts (include : bool) (fs : list KeyValue.t) : jsstring :=
  if include && negb (isEmpty fs)
  then LF ++ lit "Known facts:" ++ LF
       ++ join LF (map (fun f => lit "- " ++ KeyValue.key f ++ lit ": "
                                   ++ KeyValue.value f) fs)
  else [].

(** Step 5, fourth item. *)
Definition spec_otherTopics (include : bool) (topics : list jsstring)
  : jsstring :=
  if include && negb (isEmpty topics)
  then LF ++ lit "Other topics discussed: " ++ join (lit ", ") topics
  else [].

(** Step 5 before the trim: what follows [Current topic: ]. *)
Definition spec_afterLabel (topic : jsstring) (includeF : bool)
    (fs : list KeyValue.t) (includeT : bool) (topics : list jsstring)
  : jsstring :=
  topic ++ spec_knownFacts includeF fs ++ spec_otherTopics includeT topics.

(** Step 5. *)
Definition spec_defaultSystem (prompt topic : jsstring) (includeF : bool)
    (fs : list KeyValue.t) (includeT : bool) (topics : list jsstring)
  : jsstring :=
  trim (prompt ++ LF ++ lit "Current topic: "
          ++ spec_afterLabel topic includeF fs includeT topics).

End Specification.

(** ** The options as the specification resolves them

    Section 4.2, step 1, and the defaults of section 3, read off the
    argument itself: a bare string is the system prompt and leaves everything
    else at its default; a field of an options object that is absent takes
    its default. *)

Definition spec_systemPrompt (arg : SystemPromptOrOptions) : jsstring :=
  match arg with
  | LegacyString s => s
  | OptionsObject {| Options.systemPrompt := Some s |} => s
  | _ => lit "You are a helpful assistant."
  end.

Definition spec_includeOtherTopics (arg : SystemPromptOrOptions) : bool :=
  match arg with
  | OptionsObject {| Options.includeOtherTopics := Some false |} => false
  | _ => true
  end.

Definition spec_includeFacts (arg : SystemPromptOrOptions) : bool :=
  match arg with
  | OptionsObject {| Options.includeFacts := Some false |} => false
  | _ => true
  end.

Definition spec_factsFromAllBranches (arg : SystemPromptOrOptions) : bool :=
  match arg with
  | OptionsObject {| Options.factsFromAllBranches := Some true |} => true
  | _ => false
  end.

Definition spec_template (arg : SystemPromptOrOptions)
  : option (TemplateContext.t -> jsstring) :=
  match arg with
  | OptionsObject o => Options.template o
  | _ => None
  end.

(** Step 2 and step 3 on the sets of a context. *)
Definition spec_facts {FR : Type} (sets : list (BranchFactSet.t FR))
    (arg : SystemPromptOrOptions) : list KeyValue.t :=
  if spec_includeFacts arg
  then spec_selectFacts (spec_factsFromAllBranches arg) sets
  else [].

Definition spec_otherTopicList {FR : Type} (sets : list (BranchFactSet.t FR))
    (arg : SystemPromptOrOptions) : list jsstring :=
  if spec_includeOtherTopics arg then spec_topics sets else [].

(** [s] ends in a slash. *)
Definition endsWithSlash (s : jsstring) : bool :=
  match rev s with
  | c :: _ => c =? 47
  | [] => false
  end.

(** The value of a header in a [headers] object. *)
Fixpoint header (name : jsstring) (hs : list (jsstring * jsstring))
  : option jsstring :=
  match hs with
  | [] => None
  | (n, v) :: hs' => if eqb name n then Some v else header name hs'
  end.

(** ** Sample inputs *)

(** Integers as the numbers of sample values. *)
Definition integer_truthy (z : Z) : bool := negb (z =? 0)%Z.

Definition boot : Runtime Z :=
  {| next_id := 0%nat; armed := []; aborted := []; trace := [] |}.

(** The context of the example in section 8 of the specification. *)
Definition paris : Context.t unit unit :=
  {| Context.branchTopic := lit "Paris trip planning";
     Context.messages :=
       [ {| Message.role := lit "user";
            Message.content := lit "I want to plan a trip to Paris";
            Message.rest := tt |} ];
     Context.allFacts :=
       [ {| BranchFactSet.branchId := lit "b1";
            BranchFactSet.branchTopic := lit "Paris trip planning";
            BranchFactSet.isCurrent := true;
            BranchFactSet.facts :=
              [ {| Fact.key := lit "destination"; Fact.value := lit "Paris";
                   Fact.rest := tt |} ] |};
         {| BranchFactSet.branchId := lit "b2";
            BranchFactSet.branchTopic := lit "Budget tracking";
            BranchFactSet.isCurrent := false;
            BranchFactSet.facts := [] |} ] |}.

Definition paris_system : jsstring :=
  lit "You are a helpful assistant." ++ LF
  ++ lit "Current topic: Paris trip planning" ++ LF
  ++ lit "Known facts:" ++ LF
  ++ lit "- destination: Paris" ++ LF
  ++ lit "Other topics discussed: Budget tracking".

(** A context with an empty topic and no branch at all. *)
Definition blank : Context.t unit unit :=
  {| Context.branchTopic := [];
     Context.messages := [];
     Context.allFacts := [] |}.


(** A template that shows all it is given, between two spaces. *)
Definition show_all (t : TemplateContext.t) : jsstring :=
  lit " <" ++ TemplateContext.systemPrompt t
  ++ lit "> topic=" ++ TemplateContext.branchTopic t
  ++ lit " facts="
  ++ join (lit ";")
       (map (fun f => KeyValue.key f ++ lit "=" ++ KeyValue.value f)
          (TemplateContext.facts t))
  ++ lit " others=" ++ join (lit ";") (TemplateContext.otherTopics t)
  ++ lit " ".

(** Options that leave the facts out, from whichever branch. *)
Definition without_facts : SystemPromptOrOptions :=
  OptionsObject
    {| Options.systemPrompt := None; Options.includeOtherTopics := None;
       Options.includeFacts := Some false;
       Options.factsFromAllBranches := Some true;
       Options.template := None |}.

(** Options that leave the other topics out and take the facts of every
    branch, under a system prompt of their own. *)
Definition facts_only : SystemPromptOrOptions :=
  OptionsObject
    {| Options.systemPrompt := Some (lit "Be brief.");
       Options.includeOtherTopics := Some false;
       Options.includeFacts := Some true;
       Options.factsFromAllBranches := Some true;
       Options.template := None |}.

(** Options that only name the template [show_all], and options that name it
    and change every other field as well. *)
Definition shown : SystemPromptOrOptions :=
  OptionsObject
    {| Options.systemPrompt := None; Options.includeOtherTopics := None;
       Options.includeFacts := None; Options.factsFromAllBranches := None;
       Options.template := Some show_all |}.

Definition shown_facts_only : SystemPromptOrOptions :=
  OptionsObject
    {| Options.systemPrompt := Some (lit "Be brief.");
       Options.includeOtherTopics := Some false;
       Options.includeFacts := Some true;
       Options.factsFromAllBranches := Some true;
       Options.template := Some show_all |}.

(** Options with the empty string as system prompt. *)
Definition empty_prompt : SystemPromptOrOptions :=
  OptionsObject
    {| Options.systemPrompt := Some []; Options.includeOtherTopics := None;
       Options.includeFacts := None; Options.factsFromAllBranches := None;
       Options.template := None |}.

Definition localhost : Config.DriftConfig :=
  {| Config.baseUrl := lit "http://localhost:3000";
     Config.apiKey := None;
     Config.timeout := None;
     Config.hosted := None |}.

(** The hosted gateway of the README, with the mode left to detection. *)
(** A failure envelope with a message, and one without an [error]. *)
Definition not_found : Envelope Z unit :=
  {| success := VBool false;
     data := tt;
     error := VObj [(lit "message", VStr (lit "Branch not found"))] |}.

Definition bare_failure : Envelope Z unit :=
  {| success := VBool false; data := tt; error := VUndefined |}.

(** A configuration whose API key is the empty string. *)
Definition empty_key : Config.DriftConfig :=
  {| Config.baseUrl := lit "http://localhost:3000";
     Config.apiKey := Some [];
     Config.timeout := None;
     Config.hosted := None |}.

(** Two configurations whose base URLs differ by one final slash, the
    shorter one ending in a slash itself. *)
Definition two_slashes : Config.DriftConfig :=
  {| Config.baseUrl := lit "http://localhost:3000//";
     Config.apiKey := None;
     Config.timeout := None;
     Config.hosted := None |}.

Definition one_slash : Config.DriftConfig :=
  {| Config.baseUrl := lit "http://localhost:3000/";
     Config.apiKey := None;
     Config.timeout := None;
     Config.hosted := None |}.

Definition hosted_gateway : Config.DriftConfig :=
  {| Config.baseUrl := lit "https://api.driftos.dev";
     Config.apiKey := Some (lit "your-api-key");
     Config.timeout := None;
     Config.hosted := None |}.

(** A success envelope around [payload], and the reply with status 200 that
    carries it. *)
Definition success_envelope {T : Type} (payload : T) : Envelope Z T :=
  {| success := VBool true; data := payload; error := VUndefined |}.

Definition success_reply {T : Type} (payload : T) : Reply Z T :=
  {| ok := true; status := 200;
     reply_body := Json (JsonObject (success_envelope payload)) |}.

(** The calls of [fetch] recorded in a trace, oldest first. *)
Fixpoint fetches {number : Type} (tr : list (event number))
  : list (jsstring * RequestInit number) :=
  match tr with
  | [] => []
  | FetchCalled url init :: tr' => (url, init) :: fetches tr'
  | _ :: tr' => fetches tr'
  end.

(** The URLs fetched, oldest first. *)
Definition urls {number : Type} (tr : list (event number)) : list jsstring :=
  map fst (fetches tr).

(** ** Notions used by the further properties *)

(** [xs] is [ys] with some elements left out, the order kept. *)
Inductive Subsequence {A : Type} : list A -> list A -> Prop :=
| sub_nil : Subsequence [] []
| sub_skip (y : A) (xs ys : list A) :
    Subsequence xs ys -> Subsequence xs (y :: ys)
| sub_keep (x : A) (xs ys : list A) :
    Subsequence xs ys -> Subsequence (x :: xs) (x :: ys).

(** The network gives nothing in time: no reply, or a body that does not
    complete. *)
Definition stalls {number T : Type} (net : Network number T) : bool :=
  match net with
  | Silent => true
  | Fails => false
  | Responds r =>
      match reply_body r with
      | BodyStalls => true
      | _ => false
      end
  end.

(** The [Authorization] header of a client, if it sends one. *)
Definition authorization (c : DriftClient) : list (jsstring * jsstring) :=
  match apiKey c with
  | Some key =>
      if isEmpty key then [] else [(lit "Authorization", lit "Bearer " ++ key)]
  | None => []
  end.

(** A failure envelope whose [error] is a plain string. *)
Definition string_error : Envelope Z unit :=
  {| success := VBool false; data := tt; error := VStr (lit "boom") |}.

(** An envelope that claims success and carries an error message. *)
Definition mixed : Envelope Z unit :=
  {| success := VBool true;
     data := tt;
     error := VObj [(lit "message", VStr (lit "Upstream down"))] |}.

(** Options that take the facts of every branch. *)
Definition all_branches : Options.t :=
  {| Options.systemPrompt := None; Options.includeOtherTopics := None;
     Options.includeFacts := None;
     Options.factsFromAllBranches := Some true;
     Options.template := None |}.

(** The context of section 8 with a fact in the branch that is not
    current. *)
Definition paris_and_budget : Context.t unit unit :=
  {| Context.branchTopic := Context.branchTopic paris;
     Context.messages := Context.messages paris;
     Context.allFacts :=
       [ {| BranchFactSet.branchId := lit "b2";
            BranchFactSet.branchTopic := lit "Budget tracking";
            BranchFactSet.isCurrent := false;
            BranchFactSet.facts :=
              [ {| Fact.key := lit "budget"; Fact.value := lit "2000 EUR";
                   Fact.rest := tt |} ] |};
         {| BranchFactSet.branchId := lit "b1";
            BranchFactSet.branchTopic := lit "Paris trip planning";
            BranchFactSet.isCurrent := true;
            BranchFactSet.facts :=
              [ {| Fact.key := lit "destination"; Fact.value := lit "Paris";
                   Fact.rest := tt |} ] |} ] |}.

(** The same context with both sets marked current. *)
Definition both_current : Context.t unit unit :=
  {| Context.branchTopic := Context.branchTopic paris_and_budget;
     Context.messages := Context.messages paris_and_budget;
     Context.allFacts :=
       map (fun b => {| BranchFactSet.branchId := BranchFactSet.branchId b;
                        BranchFactSet.branchTopic := BranchFactSet.branchTopic b;
                        BranchFactSet.isCurrent := true;
                        BranchFactSet.facts := BranchFactSet.facts b |})
         (Context.allFacts paris_and_budget) |}.


(** Integers in decimal, for the sample values. *)
Definition integer_toString (z : Z) : jsstring :=
  match z with
  | Zneg p => lit "-" ++ decimal (Npos p)
  | _ => decimal (Z.to_N z)
  end.

(** A context as a server might send it, with no [allFacts]; and one whose
    only set has no [facts]. *)
Definition no_allFacts : jsval Z :=
  VObj [(lit "branchTopic", VStr (lit "Paris trip planning"));
        (lit "messages", VArr [])].

Definition no_facts : jsval Z :=
  VObj [(lit "branchTopic", VStr (lit "Paris trip planning"));
        (lit "messages", VArr []);
        (lit "allFacts",
         VArr [VObj [(lit "branchId", VStr (lit "b1"));
                     (lit "branchTopic", VStr (lit "Paris trip planning"));
                     (lit "isCurrent", VBool true)]])].

(** Options that leave out the facts and the other topics. *)
Definition bare : Options.t :=
  {| Options.systemPrompt := None;
     Options.includeOtherTopics := Some false;
     Options.includeFacts := Some false;
     Options.factsFromAllBranches := None;
     Options.template := None |}.

(** A parsed value as the typed checks of [request] see it, its [data]
    being whatever the property holds. *)
Definition parsed_of_json {number : Type} (d : jsval number)
  : Parsed number (jsval number) :=
  match d with
  | VUndefined | VNull => JsonNull
  | VObj fields =>
      JsonObject {| success := property (lit "success") fields;
                    data := property (lit "data") fields;
                    error := property (lit "error") fields |}
  | _ => JsonOther
  end.

(** * Properties *)

(** ** Strings *)

Section StringFacts.

Lemma eqb_nil (s : jsstring) : eqb s [] = isEmpty s.
Proof. destruct s; reflexivity. Qed.

Lemma join_no_separator (xs : list jsstring) : join [] xs = List.concat xs.
Proof.
  induction xs as [|x [|y r] IH]; simpl in *.
  - reflexivity.
  - now rewrite app_nil_r.
  - now rewrite IH.
Qed.

Lemma join_isEmpty (sep : jsstring) (xs : list jsstring) :
  (forall x, In x xs -> isEmpty x = false) ->
  isEmpty (join sep xs) = isEmpty xs.
Proof.
  destruct xs as [|x r]; intros Hxs; [reflexivity|].
  assert (Hx : isEmpty x = false) by (apply Hxs; now left).
  destruct x as [|c x]; [discriminate|].
  destruct r; reflexivity.
Qed.

Lemma ltb_length_isEmpty {A : Type} (l : list A) :
  (0 <? List.length l)%nat = negb (isEmpty l).
Proof. destruct l; reflexivity. Qed.

Lemma isEmpty_false_iff {A : Type} (l : list A) :
  isEmpty l = false <-> l <> [].
Proof. destruct l; simpl; split; congruence. Qed.

Lemma startsWith_app (p s : jsstring) : startsWith p (p ++ s) = true.
Proof.
  induction p as [|c p IH]; simpl; [reflexivity|].
  now rewrite N.eqb_refl, IH.
Qed.

Lemma includes_prefix (p s : jsstring) :
  startsWith p s = true -> includes p s = true.
Proof. destruct s; simpl; intros ->; reflexivity. Qed.

Lemma includes_app (a p b : jsstring) : includes p (a ++ p ++ b) = true.
Proof.
  induction a as [|c a IH]; simpl.
  - apply includes_prefix, startsWith_app.
  - rewrite IH. apply orb_true_r.
Qed.

Lemma trimStart_white_prefix (u v : jsstring) :
  forallb is_white u = true -> trimStart (u ++ v) = trimStart v.
Proof.
  induction u as [|c u IH]; simpl; [reflexivity|].
  intros H. apply andb_true_iff in H as [Hc Hu].
  rewrite Hc. now apply IH.
Qed.

Lemma trimStart_keeps_suffix (u v : jsstring) :
  existsb nonwhite u = true -> trimStart (u ++ v) = trimStart u ++ v.
Proof.
  induction u as [|c u IH]; simpl; [discriminate|].
  unfold nonwhite at 1. destruct (is_white c); simpl; auto.
Qed.

Lemma existsb_nonwhite_rev (s : jsstring) :
  existsb nonwhite (rev s) = existsb nonwhite s.
Proof.
  induction s as [|c s IH]; simpl; [reflexivity|].
  rewrite existsb_app, IH. simpl. rewrite orb_false_r. apply orb_comm.
Qed.

Lemma forallb_white_rev (s : jsstring) :
  forallb is_white (rev s) = forallb is_white s.
Proof.
  induction s as [|c s IH]; simpl; [reflexivity|].
  rewrite forallb_app, IH. simpl. rewrite andb_true_r. apply andb_comm.
Qed.

Lemma all_white_or_not (s : jsstring) :
  forallb is_white s = negb (existsb nonwhite s).
Proof.
  induction s as [|c s IH]; simpl; [reflexivity|].
  rewrite IH. unfold nonwhite. now destruct (is_white c).
Qed.

Lemma trimEnd_keeps_prefix (a b : jsstring) :
  existsb nonwhite b = true -> trimEnd (a ++ b) = a ++ trimEnd b.
Proof.
  intros H. unfold trimEnd.
  rewrite rev_app_distr, trimStart_keeps_suffix
    by now rewrite existsb_nonwhite_rev.
  now rewrite rev_app_distr, rev_involutive.
Qed.

Lemma trimEnd_white_suffix (a b : jsstring) :
  existsb nonwhite b = false -> trimEnd (a ++ b) = trimEnd a.
Proof.
  intros H. unfold trimEnd.
  rewrite rev_app_distr, trimStart_white_prefix; [reflexivity|].
  now rewrite forallb_white_rev, all_white_or_not, H.
Qed.

Lemma dropLastSlash_snoc (b : jsstring) : dropLastSlash (b ++ [47]) = b.
Proof.
  induction b as [|c b IH]; [reflexivity|].
  change ((c :: b) ++ [47]) with (c :: (b ++ [47])).
  simpl. rewrite IH. destruct b; reflexivity.
Qed.

Lemma dropLastSlash_other (b : jsstring) :
  endsWithSlash b = false -> dropLastSlash b = b.
Proof.
  induction b as [|c b IH] using rev_ind; [reflexivity|].
  unfold endsWithSlash. rewrite rev_app_distr. simpl. intros Hc.
  clear IH. induction b as [|d b IH]; simpl.
  - now rewrite Hc.
  - rewrite IH. destruct b; reflexivity.
Qed.

End StringFacts.

(** ** The prompt assembler *)

Section AssemblerFacts.

Variables FR MR : Type.

Implicit Types (ctx : Context.t FR MR) (o : Options.t).

Lemma keyValue_pairs (fs : list (Fact.t FR)) :
  map (@keyValue FR) fs = spec_pairs fs.
Proof. induction fs as [|f fs IH]; simpl; [|rewrite IH]; reflexivity. Qed.

Lemma selected_facts (fromAll : bool) (sets : list (BranchFactSet.t FR)) :
  flat_map (fun b => map (@keyValue FR) (BranchFactSet.facts b))
    (filter (fun b => fromAll || BranchFactSet.isCurrent b) sets)
  = spec_selectFacts fromAll sets.
Proof.
  induction sets as [|b sets IH]; simpl; [reflexivity|].
  destruct (fromAll || BranchFactSet.isCurrent b); simpl.
  - now rewrite IH, keyValue_pairs.
  - exact IH.
Qed.

Lemma factsToInclude_spec ctx o :
  factsToInclude ctx o =
  if includeFacts o
  then spec_selectFacts (factsFromAllBranches o) (Context.allFacts ctx)
  else [].
Proof.
  unfold factsToInclude. destruct (includeFacts o); [|reflexivity].
  apply selected_facts.
Qed.

Lemma otherTopics_spec ctx o :
  otherTopics ctx o =
  if includeOtherTopics o then spec_topics (Context.allFacts ctx) else [].
Proof.
  unfold otherTopics. destruct (includeOtherTopics o); [|reflexivity].
  induction (Context.allFacts ctx) as [|b sets IH]; simpl; [reflexivity|].
  destruct (BranchFactSet.isCurrent b); simpl; [|rewrite IH]; auto.
Qed.

Lemma factsBlock_isEmpty ctx o :
  isEmpty (factsBlock ctx o) = isEmpty (factsToInclude ctx o).
Proof.
  unfold factsBlock. rewrite join_isEmpty.
  - now destruct (factsToInclude ctx o).
  - intros x Hx. apply in_map_iff in Hx as [f [<- _]]. reflexivity.
Qed.

Lemma system_default ctx o :
  Options.template o = None ->
  system ctx o =
  spec_defaultSystem (systemPrompt o) (Context.branchTopic ctx)
    (includeFacts o) (factsToInclude ctx o)
    (includeOtherTopics o) (otherTopics ctx o).
Proof.
  intros Hnone. unfold system. rewrite Hnone.
  unfold spec_defaultSystem, spec_afterLabel, spec_knownFacts,
    spec_otherTopics, parts.
  rewrite join_no_separator, eqb_nil, factsBlock_isEmpty, ltb_length_isEmpty.
  f_equal. unfold factsBlock, factLine.
  destruct (includeFacts o && negb (isEmpty (factsToInclude ctx o)));
    destruct (includeOtherTopics o && negb (isEmpty (otherTopics ctx o)));
    simpl; rewrite ?app_nil_r, <- ?app_assoc; reflexivity.
Qed.

Lemma knownFacts_nonwhite (include : bool) (fs : list KeyValue.t) :
  existsb nonwhite (spec_knownFacts include fs)
  = include && negb (isEmpty fs).
Proof.
  unfold spec_knownFacts.
  destruct (include && negb (isEmpty fs)); reflexivity.
Qed.

Lemma otherTopics_nonwhite (include : bool) (topics : list jsstring) :
  existsb nonwhite (spec_otherTopics include topics)
  = include && negb (isEmpty topics).
Proof.
  unfold spec_otherTopics.
  destruct (include && negb (isEmpty topics)); reflexivity.
Qed.

(** With an empty system prompt the default template gives the label
    followed by the rest with its end trimmed, or [Current topic:] alone when
    only white space follows the label. *)
Lemma defaultSystem_empty_prompt (rest : jsstring) :
  trim ([] ++ LF ++ lit "Current topic: " ++ rest) =
  if existsb nonwhite rest
  then lit "Current topic: " ++ trimEnd rest
  else lit "Current topic:".
Proof.
  unfold trim.
  change (trimStart ([] ++ LF ++ lit "Current topic: " ++ rest))
    with (lit "Current topic: " ++ rest).
  destruct (existsb nonwhite rest) eqn:E.
  - now apply trimEnd_keeps_prefix.
  - now rewrite trimEnd_white_suffix.
Qed.

Lemma included_facts_nonempty ctx o :
  includeFacts o && negb (isEmpty (factsToInclude ctx o)) = true
  <-> factsToInclude ctx o <> [].
Proof.
  rewrite <- isEmpty_false_iff. unfold factsToInclude.
  destruct (includeFacts o); simpl.
  - now rewrite negb_true_iff.
  - split; discriminate.
Qed.

Lemma included_topics_nonempty ctx o :
  includeOtherTopics o && negb (isEmpty (otherTopics ctx o)) = true
  <-> otherTopics ctx o <> [].
Proof.
  rewrite <- isEmpty_false_iff. unfold otherTopics.
  destruct (includeOtherTopics o); simpl.
  - now rewrite negb_true_iff.
  - split; discriminate.
Qed.


End AssemblerFacts.

(** ** The transport *)

(** Unfolds one run of [request] down to the run-time primitives. *)
Ltac run_request :=
  unfold request, bind, try_finally, fetch, json, unwrap, starve, throw, ret,
    new_AbortController, setTimeout, clearTimeout, observe, elapse, is_aborted;
  simpl; rewrite ?Nat.eqb_refl; simpl.

Ltac by_cases net :=
  let ok := fresh "ok" in
  let st := fresh "st" in
  let e := fresh "e" in
  destruct net as [[ok st [ | |[ | |e]]] | | ].

Ltac split_on_failure :=
  match goal with
  | |- context [negb ?k || negb (truthy ?nt (success ?e))] =>
      destruct (negb k || negb (truthy nt (success e)))
  end.

Section TransportFacts.

Variable number : Type.
Variable number_truthy : number -> bool.

Lemma fetches_app (tr tr' : list (event number)) :
  fetches (tr ++ tr') = fetches tr ++ fetches tr'.
Proof.
  induction tr as [|e tr IH]; simpl; [reflexivity|].
  destruct e; simpl; now rewrite IH.
Qed.

Lemma fetches_fired (ts : list timer) :
  fetches (map (fun t => @TimerFired number (timer_id t)) ts) = [].
Proof. induction ts; simpl; auto. Qed.

Lemma truthy_string (s : jsstring) :
  truthy number_truthy (VStr s) = negb (isEmpty s).
Proof. simpl. now rewrite eqb_nil. Qed.

(** Every call of [request] calls [fetch] once, on [baseUrl + path], with
    the method, the headers and the body computed from its arguments and its
    own abort signal. *)
Lemma request_fetches {T : Type} (c : DriftClient) (net : Network number T)
    (m p : jsstring) (b : jsval number) (rt : Runtime number) :
  fetches (trace (snd (request number_truthy c net m p b rt))) =
  fetches (trace rt) ++
  [(baseUrl c ++ p,
    {| method := m;
       headers := requestHeaders number_truthy c b;
       body := if truthy number_truthy b then Some (JSON_stringify b) else None;
       signal := Some (next_id rt) |})].
Proof.
  by_cases net; run_request; try split_on_failure;
    simpl; rewrite ?Nat.eqb_refl; simpl;
    repeat rewrite fetches_app; simpl;
    rewrite ?fetches_fired, ?app_nil_r; reflexivity.
Qed.

Lemma request_urls {T : Type} (c : DriftClient) (net : Network number T)
    (m p : jsstring) (b : jsval number) (rt : Runtime number) :
  urls (trace (snd (request number_truthy c net m p b rt))) =
  urls (trace rt) ++ [baseUrl c ++ p].
Proof. unfold urls. now rewrite request_fetches, map_app. Qed.

(** What [request] returns when the reply is an object. *)
Lemma request_on_envelope {T : Type} (c : DriftClient) (m p : jsstring)
    (b : jsval number) (rt : Runtime number) (k : bool) (st : N)
    (e : Envelope number T) :
  fst (request number_truthy c
         (Responds {| ok := k; status := st;
                      reply_body := Json (JsonObject e) |}) m p b rt) =
  if negb k || negb (truthy number_truthy (success e))
  then Thrown (Error (nullish_or (optional_message (error e))
                        (requestFailed number st)))
  else Returned (data e).
Proof.
  run_request. split_on_failure; reflexivity.
Qed.

(** The timer of a call: armed with the timeout of the client, its callback
    aborting the controller of the call. *)
Lemma request_arms_timer {T : Type} (c : DriftClient) (net : Network number T)
    (m p : jsstring) (b : jsval number) (rt : Runtime number) :
  In (TimerSet {| timer_id := S (next_id rt);
                  handler := controller_abort (next_id rt);
                  delay := timeout c |})
     (trace (snd (request number_truthy c net m p b rt))).
Proof.
  by_cases net; run_request; try split_on_failure; simpl;
    rewrite !in_app_iff; simpl; auto 10.
Qed.

(** [request] never stays pending, and the last thing it does is to clear
    its timer. *)
Lemma request_settles {T : Type} (c : DriftClient) (net : Network number T)
    (m p : jsstring) (b : jsval number) (rt : Runtime number) :
  fst (request number_truthy c net m p b rt) <> Pending
  /\ exists earlier,
      trace (snd (request number_truthy c net m p b rt)) =
      earlier ++ [TimerCleared (S (next_id rt))].
Proof.
  by_cases net; run_request; try split_on_failure; simpl;
    (split; [discriminate | eexists; reflexivity]).
Qed.

Lemma request_leaves_no_timer {T : Type} (c : DriftClient)
    (net : Network number T) (m p : jsstring) (b : jsval number)
    (rt : Runtime number) (t : timer) :
  In t (armed (snd (request number_truthy c net m p b rt))) ->
  In t (armed rt) /\ timer_id t <> S (next_id rt).
Proof.
  by_cases net; run_request; try split_on_failure; simpl;
    rewrite ?Nat.eqb_refl; simpl; try contradiction;
    rewrite filter_In; intros [Hin Hid];
    apply negb_true_iff, Nat.eqb_neq in Hid; auto.
Qed.

Lemma bind_ret_state {A B : Type} (m : Async number A) (f : A -> B)
    (rt : Runtime number) :
  snd (bind m (fun a => ret (f a)) rt) = snd (m rt).
Proof. unfold bind, ret. destruct (m rt) as [[a|e|] rt']; reflexivity. Qed.

End TransportFacts.

(** ** The model at work *)

Example trim_both_ends : trim (LF ++ lit "  a b " ++ LF) = lit "a b".
Proof. reflexivity. Qed.

Example status_digits : decimal 404 = lit "404" /\ decimal 0 = lit "0".
Proof. split; reflexivity. Qed.

Example request_with_key_and_body :
  request integer_truthy (constructor hosted_gateway)
    (Responds (success_reply tt)) (lit "POST") (lit "/api/v1/drift/route")
    (VObj [(lit "content", VStr (lit "hello"))]) boot
  = (Returned tt,
     {| next_id := 2;
        armed := [];
        aborted := [];
        trace :=
          [ TimerSet {| timer_id := 1; handler := controller_abort 0;
                        delay := 10000 |};
            FetchCalled (lit "https://api.driftos.dev/api/v1/drift/route")
              {| method := lit "POST";
                 headers :=
                   [ (lit "Content-Type", lit "application/json");
                     (lit "Authorization", lit "Bearer your-api-key") ];
                 body := Some (JSON_stringify
                                 (VObj [(lit "content", VStr (lit "hello"))]));
                 signal := Some 0%nat |};
            TimerCleared 1 ] |}).
Proof. reflexivity. Qed.

Example body_that_is_not_json :
  fst (request integer_truthy (constructor localhost)
         (Responds {| ok := true; status := 200;
                      reply_body := @NotJson Z unit |})
         (lit "GET") (lit "/api/v1/facts/b1") VUndefined boot)
  = Thrown SyntaxError.
Proof. reflexivity. Qed.

Example body_that_is_null :
  fst (request integer_truthy (constructor localhost)
         (Responds {| ok := true; status := 200;
                      reply_body := Json (@JsonNull Z unit) |})
         (lit "GET") (lit "/api/v1/facts/b1") VUndefined boot)
  = Thrown TypeError.
Proof. reflexivity. Qed.

Example network_failure :
  fst (request integer_truthy (constructor localhost) (@Fails Z unit)
         (lit "GET") (lit "/api/v1/facts/b1") VUndefined boot)
  = Thrown NetworkError.
Proof. reflexivity. Qed.

(** ** The options as resolved by the code and by the specification *)

Section ResolvedOptions.

Variables FR MR : Type.

Implicit Types (ctx : Context.t FR MR) (arg : SystemPromptOrOptions).

Lemma resolved_systemPrompt arg :
  systemPrompt (options arg) = spec_systemPrompt arg.
Proof.
  destruct arg as [|s|[[s|] topics facts fromAll template]]; reflexivity.
Qed.

Lemma resolved_includeOtherTopics arg :
  includeOtherTopics (options arg) = spec_includeOtherTopics arg.
Proof.
  destruct arg as [|s|[prompt [[|]|] facts fromAll template]]; reflexivity.
Qed.

Lemma resolved_includeFacts arg :
  includeFacts (options arg) = spec_includeFacts arg.
Proof.
  destruct arg as [|s|[prompt topics [[|]|] fromAll template]]; reflexivity.
Qed.

Lemma resolved_factsFromAllBranches arg :
  factsFromAllBranches (options arg) = spec_factsFromAllBranches arg.
Proof.
  destruct arg as [|s|[prompt topics facts [[|]|] template]]; reflexivity.
Qed.

Lemma resolved_template arg :
  Options.template (options arg) = spec_template arg.
Proof. destruct arg; reflexivity. Qed.

Lemma resolved_facts ctx arg :
  factsToInclude ctx (options arg) = spec_facts (Context.allFacts ctx) arg.
Proof.
  unfold spec_facts.
  now rewrite factsToInclude_spec, resolved_includeFacts,
    resolved_factsFromAllBranches.
Qed.

Lemma resolved_otherTopics ctx arg :
  otherTopics ctx (options arg) =
  spec_otherTopicList (Context.allFacts ctx) arg.
Proof.
  unfold spec_otherTopicList.
  now rewrite otherTopics_spec, resolved_includeOtherTopics.
Qed.

(** The default template of the code on the options of the specification. *)
Lemma resolved_default_system ctx arg :
  spec_template arg = None ->
  Prompt.system (assemble ctx arg) =
  spec_defaultSystem (spec_systemPrompt arg) (Context.branchTopic ctx)
    (spec_includeFacts arg) (spec_facts (Context.allFacts ctx) arg)
    (spec_includeOtherTopics arg)
    (spec_otherTopicList (Context.allFacts ctx) arg).
Proof.
  intros Hnone. rewrite <- resolved_template in Hnone.
  unfold assemble. cbn [Prompt.system].
  rewrite (system_default ctx _ Hnone).
  now rewrite resolved_systemPrompt, resolved_includeFacts,
    resolved_includeOtherTopics, resolved_facts, resolved_otherTopics.
Qed.

End ResolvedOptions.

(** ** The untyped run on values of the declared shape *)

Section UntypedFacts.

Variable number : Type.
Variable number_truthy : number -> bool.
Variable number_toString : number -> jsstring.
Variables FR MR : Type.







(** The typed checks of [request] give, on the view of a parsed value, what
    lines 49 to 53 give when run on the value itself. *)
Lemma unwrap_agrees (k : bool) (st : N) (d : jsval number)
    (signal : option nat) (rt : Runtime number) :
  fst (unwrap number_truthy
         {| reply := {| ok := k; status := st;
                        reply_body := Json (parsed_of_json d) |};
            via := signal |}
         (parsed_of_json d) rt)
  = unwrap_json number_truthy k st d.
Proof.
  unfold unwrap, unwrap_json.
  destruct d as [ | |b|n|s|items|fields]; destruct k;
    cbn [parsed_of_json get and_then negb orb ok status reply success error
         data];
    try reflexivity.
  - destruct (truthy number_truthy (property (lit "success") fields));
      reflexivity.
Qed.

End UntypedFacts.

(** * The claims *)

(** C4.  Without a template, [system] is the trimmed concatenation of the
    system prompt, the [Current topic] line, the [Known facts] block exactly
    when facts are included and the selected list is not empty, and the
    [Other topics discussed] line exactly when topics are included and their
    list is not empty, the options being those of the argument with the
    defaults of section 3; on the context of section 8 with default options
    it is the expected string of the example, code unit for code unit. *)
Theorem C4_default_template :
  (forall (FR MR : Type) (ctx : Context.t FR MR)
          (arg : SystemPromptOrOptions),
      spec_template arg = None ->
      Prompt.system (assemble ctx arg) =
      trim (spec_systemPrompt arg
            ++ LF ++ lit "Current topic: " ++ Context.branchTopic ctx
            ++ spec_knownFacts (spec_includeFacts arg)
                 (spec_facts (Context.allFacts ctx) arg)
            ++ spec_otherTopics (spec_includeOtherTopics arg)
                 (spec_otherTopicList (Context.allFacts ctx) arg)))
  /\ Prompt.system (assemble paris Omitted) = paris_system.
Proof.
  split; [|reflexivity].
  intros FR MR ctx arg Hnone.
  exact (resolved_default_system ctx arg Hnone).
Qed.

Lemma C4_default_template_witness :
  spec_template facts_only = None
  /\ spec_includeOtherTopics facts_only = false
  /\ Prompt.system (assemble paris_and_budget facts_only) =
     lit "Be brief." ++ LF ++ lit "Current topic: Paris trip planning" ++ LF
     ++ lit "Known facts:" ++ LF ++ lit "- budget: 2000 EUR" ++ LF
     ++ lit "- destination: Paris"
  /\ Prompt.system (assemble paris_and_budget (LegacyString (lit "Hi."))) =
     lit "Hi." ++ LF ++ lit "Current topic: Paris trip planning" ++ LF
     ++ lit "Known facts:" ++ LF ++ lit "- destination: Paris" ++ LF
     ++ lit "Other topics discussed: Budget tracking"
  /\ Prompt.system (assemble paris_and_budget without_facts) =
     lit "You are a helpful assistant." ++ LF
     ++ lit "Current topic: Paris trip planning" ++ LF
     ++ lit "Other topics discussed: Budget tracking".
Proof.
  split; [reflexivity|]. split; [reflexivity|]. split; [|split].
  - rewrite (proj1 C4_default_template unit unit paris_and_budget
               facts_only eq_refl).
    reflexivity.
  - rewrite (proj1 C4_default_template unit unit paris_and_budget
               (LegacyString (lit "Hi.")) eq_refl).
    reflexivity.
  - rewrite (proj1 C4_default_template unit unit paris_and_budget
               without_facts eq_refl).
    reflexivity.
Defined.

(** C5.  With [includeFacts] false no fact is selected, and the default
    template then has no [Known facts] block whatever [allFacts] holds;
    otherwise the selected facts are those of the sets that are current, or
    of all sets when [factsFromAllBranches] is true, flattened to key and
    value in branch order and then fact order.  The two options are those of
    the argument, with their defaults. *)
Theorem C5_fact_selection :
  forall (FR MR : Type) (ctx : Context.t FR MR) (arg : SystemPromptOrOptions),
    (spec_includeFacts arg = false ->
       factsToInclude ctx (options arg) = []
       /\ (spec_template arg = None ->
           Prompt.system (assemble ctx arg) =
           trim (spec_systemPrompt arg
                 ++ LF ++ lit "Current topic: " ++ Context.branchTopic ctx
                 ++ spec_otherTopics (spec_includeOtherTopics arg)
                      (spec_otherTopicList (Context.allFacts ctx) arg))))
    /\ (spec_includeFacts arg = true ->
          factsToInclude ctx (options arg) =
          spec_selectFacts (spec_factsFromAllBranches arg)
            (Context.allFacts ctx)).
Proof.
  intros FR MR ctx arg. split; intros Hinc.
  - split.
    + rewrite resolved_facts. unfold spec_facts. now rewrite Hinc.
    + intros Hnone. rewrite (resolved_default_system ctx arg Hnone).
      unfold spec_defaultSystem, spec_afterLabel, spec_knownFacts.
      now rewrite Hinc.
  - rewrite resolved_facts. unfold spec_facts. now rewrite Hinc.
Qed.

Lemma C5_fact_selection_witness :
  spec_includeFacts without_facts = false
  /\ Context.allFacts paris_and_budget <> []
  /\ factsToInclude paris_and_budget (options without_facts) = []
  /\ Prompt.system (assemble paris_and_budget without_facts) =
     lit "You are a helpful assistant." ++ LF
     ++ lit "Current topic: Paris trip planning" ++ LF
     ++ lit "Other topics discussed: Budget tracking"
  /\ factsToInclude paris_and_budget (options Omitted) =
     [ {| KeyValue.key := lit "destination"; KeyValue.value := lit "Paris" |} ]
  /\ spec_factsFromAllBranches facts_only = true
  /\ factsToInclude paris_and_budget (options facts_only) =
     [ {| KeyValue.key := lit "budget"; KeyValue.value := lit "2000 EUR" |};
       {| KeyValue.key := lit "destination"; KeyValue.value := lit "Paris" |} ].
Proof.
  split; [reflexivity|]. split; [discriminate|].
  split; [|split; [|split; [|split; [reflexivity|]]]].
  - exact (proj1 (proj1 (C5_fact_selection paris_and_budget without_facts)
                    eq_refl)).
  - rewrite (proj2 (proj1 (C5_fact_selection paris_and_budget without_facts)
                      eq_refl) eq_refl).
    reflexivity.
  - rewrite (proj2 (C5_fact_selection paris_and_budget Omitted) eq_refl).
    reflexivity.
  - rewrite (proj2 (C5_fact_selection paris_and_budget facts_only) eq_refl).
    reflexivity.
Defined.

(** C6.  [messages] is always [context.messages] projected to role and
    content, in order, whatever the options; and when a template is supplied,
    [system] is its return value as it stands, the template being applied to
    the system prompt (configured or default), the topic of the context, the
    facts of step 2 and the other topics of step 3, each taken from the
    argument with its defaults, and to nothing else. *)
Theorem C6_template_verbatim :
  forall (FR MR : Type) (ctx : Context.t FR MR) (arg : SystemPromptOrOptions),
    Prompt.messages (assemble ctx arg) =
      map (fun m => {| RoleContent.role := Message.role m;
                       RoleContent.content := Message.content m |})
        (Context.messages ctx)
    /\ forall template : TemplateContext.t -> jsstring,
        spec_template arg = Some template ->
        Prompt.system (assemble ctx arg) =
        template
          {| TemplateContext.systemPrompt := spec_systemPrompt arg;
             TemplateContext.branchTopic := Context.branchTopic ctx;
             TemplateContext.facts := spec_facts (Context.allFacts ctx) arg;
             TemplateContext.otherTopics :=
               spec_otherTopicList (Context.allFacts ctx) arg |}.
Proof.
  intros FR MR ctx arg. split; [reflexivity|].
  intros template Hsome. rewrite <- resolved_template in Hsome.
  unfold assemble, system. cbn [Prompt.system].
  rewrite Hsome, resolved_systemPrompt, resolved_facts, resolved_otherTopics.
  reflexivity.
Qed.

Lemma C6_template_verbatim_witness :
  spec_template shown = Some show_all
  /\ Prompt.system (assemble paris_and_budget shown) =
     lit " <You are a helpful assistant.> topic=Paris trip planning"
     ++ lit " facts=destination=Paris others=Budget tracking "
  /\ spec_template shown_facts_only = Some show_all
  /\ Prompt.system (assemble paris_and_budget shown_facts_only) =
     lit " <Be brief.> topic=Paris trip planning"
     ++ lit " facts=budget=2000 EUR;destination=Paris others= "
  /\ Prompt.messages (assemble paris_and_budget shown) =
     [ {| RoleContent.role := lit "user";
          RoleContent.content := lit "I want to plan a trip to Paris" |} ].
Proof.
  split; [reflexivity|]. split; [|split; [reflexivity|split]].
  - rewrite (proj2 (C6_template_verbatim paris_and_budget shown)
               show_all eq_refl).
    reflexivity.
  - rewrite (proj2 (C6_template_verbatim paris_and_budget shown_facts_only)
               show_all eq_refl).
    reflexivity.
  - rewrite (proj1 (C6_template_verbatim paris_and_budget shown)).
    reflexivity.
Defined.

(** C10.  As amended: an empty system prompt, given as the bare string or as
    the [systemPrompt] option, is kept and not replaced by the default; under
    the default template [system] then begins with [Current topic:].  When
    something other than white space follows the label (the topic has a
    character that is not white space, or facts or other topics are listed),
    and only then, it begins with [Current topic: ], the space included, and
    is that followed by the rest with its end trimmed; otherwise the trim
    takes the space as well and [system] is exactly [Current topic:]. *)
Theorem C10_empty_prompt_kept :
  forall (FR MR : Type) (ctx : Context.t FR MR) (arg : SystemPromptOrOptions),
    Options.systemPrompt (options arg) = Some [] ->
    Options.template (options arg) = None ->
    let text := Prompt.system (assemble ctx arg) in
    let facts := spec_facts (Context.allFacts ctx) arg in
    let topics := spec_otherTopicList (Context.allFacts ctx) arg in
    let followed :=
      existsb nonwhite (Context.branchTopic ctx) = true
      \/ facts <> [] \/ topics <> [] in
    systemPrompt (options arg) = []
    /\ startsWith (lit "Current topic:") text = true
    /\ (startsWith (lit "Current topic: ") text = true <-> followed)
    /\ (followed ->
        text = lit "Current topic: "
               ++ trimEnd (Context.branchTopic ctx
                           ++ spec_knownFacts (spec_includeFacts arg) facts
                           ++ spec_otherTopics (spec_includeOtherTopics arg)
                                topics))
    /\ (~ followed -> text = lit "Current topic:").
Proof.
  intros FR MR ctx arg Hempty Hnone text facts topics followed.
  assert (Hprompt : systemPrompt (options arg) = [])
    by (unfold systemPrompt; now rewrite Hempty).
  split; [exact Hprompt|].
  rewrite resolved_template in Hnone. rewrite resolved_systemPrompt in Hprompt.
  subst text. rewrite (resolved_default_system ctx arg Hnone), Hprompt.
  unfold spec_defaultSystem. rewrite defaultSystem_empty_prompt.
  unfold spec_afterLabel. fold facts topics.
  set (rest := Context.branchTopic ctx ++ _).
  assert (Hfollowed : existsb nonwhite rest = true <-> followed).
  { subst rest followed.
    rewrite !existsb_app, knownFacts_nonwhite, otherTopics_nonwhite.
    rewrite !orb_true_iff, !andb_true_iff, !negb_true_iff,
      !isEmpty_false_iff.
    subst facts topics. unfold spec_facts, spec_otherTopicList.
    destruct (spec_includeFacts arg), (spec_includeOtherTopics arg);
      intuition congruence. }
  destruct (existsb nonwhite rest) eqn:E.
  - split; [|split; [|split]].
    + change (lit "Current topic: ") with (lit "Current topic:" ++ lit " ").
      rewrite <- app_assoc. apply startsWith_app.
    + split; intros _; [now apply Hfollowed | apply startsWith_app].
    + reflexivity.
    + intros Hnot. exfalso. apply Hnot. now apply Hfollowed.
  - split; [reflexivity|]. split; [|split].
    + split; [discriminate|].
      intros H. apply Hfollowed in H. discriminate.
    + intros H. apply Hfollowed in H. discriminate.
    + reflexivity.
Qed.

Lemma C10_empty_prompt_kept_witness :
  Options.systemPrompt (options (LegacyString [])) = Some []
  /\ Options.template (options (LegacyString [])) = None
  /\ Prompt.system (assemble paris (LegacyString [])) =
     lit "Current topic: Paris trip planning" ++ LF
     ++ lit "Known facts:" ++ LF ++ lit "- destination: Paris" ++ LF
     ++ lit "Other topics discussed: Budget tracking"
  /\ Options.systemPrompt (options empty_prompt) = Some []
  /\ Prompt.system (assemble blank empty_prompt) = lit "Current topic:".
Proof.
  split; [reflexivity|]. split; [reflexivity|].
  split; [|split; [reflexivity|]].
  - destruct (C10_empty_prompt_kept paris (LegacyString []) eq_refl eq_refl)
      as (_ & _ & _ & Hfollowed & _).
    rewrite Hfollowed; [reflexivity|]. left. reflexivity.
  - destruct (C10_empty_prompt_kept blank empty_prompt eq_refl eq_refl)
      as (_ & _ & _ & _ & Hbare).
    apply Hbare. intros [H|[H|H]]; [discriminate H|apply H|apply H];
      reflexivity.
Defined.

(** C10 as stated fails on a context whose topic is empty and which has no
    branch: the system string is [Current topic:], without the space. *)
Lemma C10_counterexample :
  Prompt.system (assemble blank (LegacyString [])) = lit "Current topic:"
  /\ startsWith (lit "Current topic: ")
       (Prompt.system (assemble blank (LegacyString []))) = false.
Proof. split; reflexivity. Qed.




(** C2.  Whatever the status, an envelope whose [success] is false and whose
    [error.message] is the string [X] makes [request] throw an error with
    message [X]; on a failure (status not ok, or [success] false) without
    [error.message] the message is [Request failed: ] followed by the status
    code; with an ok status and [success] true the call returns
    [envelope.data]. *)
Theorem C2_error_envelope :
  forall (number : Type) (number_truthy : number -> bool) (T : Type)
         (c : DriftClient) (m p : jsstring) (b : jsval number)
         (rt : Runtime number) (k : bool) (st : N) (e : Envelope number T),
    let result :=
      fst (request number_truthy c
             (Responds {| ok := k; status := st;
                          reply_body := Json (JsonObject e) |}) m p b rt) in
    (forall X : jsstring,
        truthy number_truthy (success e) = false ->
        optional_message (error e) = VStr X ->
        result = Thrown (Error (VStr X)))
    /\ (k = false \/ truthy number_truthy (success e) = false ->
        optional_message (error e) = VUndefined ->
        result = Thrown (Error (VStr (lit "Request failed: " ++ decimal st)))
        /\ includes (decimal st) (lit "Request failed: " ++ decimal st) = true)
    /\ (k = true ->
        truthy number_truthy (success e) = true ->
        result = Returned (data e)).
Proof.
  intros number nt T c m p b rt k st e result. subst result.
  rewrite request_on_envelope. split; [|split].
  - intros X Hfalse Hmessage.
    rewrite Hfalse, Hmessage, orb_true_r. reflexivity.
  - intros Hfailed Habsent. split.
    + destruct Hfailed as [-> | ->]; rewrite Habsent, ?orb_true_r; reflexivity.
    + rewrite <- (app_nil_r (decimal st)) at 2. apply includes_app.
  - intros -> ->. reflexivity.
Qed.

Lemma C2_error_envelope_witness :
  fst (request integer_truthy (constructor localhost)
         (Responds {| ok := true; status := 200;
                      reply_body := Json (JsonObject not_found) |})
         (lit "GET") (lit "/api/v1/context/b9") VUndefined boot)
  = Thrown (Error (VStr (lit "Branch not found")))
  /\ fst (request integer_truthy (constructor localhost)
            (Responds {| ok := false; status := 404;
                         reply_body := Json (JsonObject bare_failure) |})
            (lit "GET") (lit "/api/v1/context/b9") VUndefined boot)
     = Thrown (Error (VStr (lit "Request failed: 404")))
  /\ fst (request integer_truthy (constructor localhost)
            (Responds (success_reply paris))
            (lit "GET") (lit "/api/v1/context/b1") VUndefined boot)
     = Returned paris.
Proof.
  split; [|split].
  - apply (proj1 (C2_error_envelope integer_truthy (constructor localhost)
                    (lit "GET") (lit "/api/v1/context/b9") VUndefined boot
                    true 200 not_found));
      reflexivity.
  - apply (proj1 (proj2 (C2_error_envelope integer_truthy
                           (constructor localhost) (lit "GET")
                           (lit "/api/v1/context/b9") VUndefined boot
                           false 404 bare_failure)));
      [left|]; reflexivity.
  - apply (proj2 (proj2 (C2_error_envelope integer_truthy
                           (constructor localhost) (lit "GET")
                           (lit "/api/v1/context/b1") VUndefined boot
                           true 200 (success_envelope paris))));
      reflexivity.
Defined.

(** C3.  Every call of [request] settles and ends by clearing its timer, on
    every path: no timer of the call stays armed and none is armed that was
    not before.  The timer is set with the timeout of the client and aborts
    the controller whose signal the call hands to [fetch]; when nothing
    arrives in time, whether no reply at all or a body that does not
    complete, the network layer receives the abort and the call is rejected
    with the abort error. *)
Theorem C3_timeout_and_timer :
  forall (number : Type) (number_truthy : number -> bool) (T : Type)
         (c : DriftClient) (net : Network number T) (m p : jsstring)
         (b : jsval number) (rt : Runtime number),
    let final := request number_truthy c net m p b rt in
    let controller := next_id rt in
    let timeoutId := S (next_id rt) in
    fst final <> Pending
    /\ In (TimerSet {| timer_id := timeoutId;
                       handler := controller_abort controller;
                       delay := timeout c |}) (trace (snd final))
    /\ (exists init,
           fetches (trace (snd final)) =
             fetches (trace rt) ++ [(baseUrl c ++ p, init)]
           /\ signal init = Some controller)
    /\ (exists earlier, trace (snd final) = earlier ++ [TimerCleared timeoutId])
    /\ (forall t, In t (armed (snd final)) ->
                  In t (armed rt) /\ timer_id t <> timeoutId)
    /\ (net = Silent
        \/ (exists k st, net = Responds {| ok := k; status := st;
                                           reply_body := BodyStalls |}) ->
        fst final = Thrown AbortError
        /\ In (AbortReceived controller) (trace (snd final))).
Proof.
  intros number nt T c net m p b rt final controller timeoutId.
  subst final controller timeoutId.
  split; [apply request_settles|].
  split; [apply request_arms_timer|].
  split; [eexists; split; [apply request_fetches | reflexivity]|].
  split; [apply request_settles|].
  split; [intros t; apply request_leaves_no_timer|].
  intros [-> | (k & st & ->)]; run_request;
    (split; [reflexivity | rewrite !in_app_iff; simpl; auto 10]).
Qed.

Lemma C3_timeout_and_timer_witness :
  fst (request integer_truthy (constructor localhost) (@Silent Z unit)
         (lit "GET") (lit "/api/v1/context/b1") VUndefined boot)
  = Thrown AbortError
  /\ trace (snd (request integer_truthy (constructor localhost)
                   (@Silent Z unit) (lit "GET") (lit "/api/v1/context/b1")
                   VUndefined boot))
     = [ TimerSet {| timer_id := 1; handler := controller_abort 0;
                     delay := 10000 |};
         FetchCalled (lit "http://localhost:3000/api/v1/context/b1")
           {| method := lit "GET"; headers := []; body := None;
              signal := Some 0%nat |};
         TimerFired 1;
         AbortReceived 0;
         TimerCleared 1 ]
  /\ armed (snd (request integer_truthy (constructor localhost)
                   (@Silent Z unit) (lit "GET") (lit "/api/v1/context/b1")
                   VUndefined boot)) = [].
Proof.
  split; [|split; reflexivity].
  apply (C3_timeout_and_timer integer_truthy (constructor localhost)
           (@Silent Z unit) (lit "GET") (lit "/api/v1/context/b1")
           VUndefined boot).
  left. reflexivity.
Defined.

(** C7.  As amended: the call of [fetch] carries [Content-Type:
    application/json] exactly when the body argument is truthy, and
    [Authorization: Bearer <apiKey>] exactly when an API key is configured
    and is not the empty string. *)
Theorem C7_headers :
  forall (number : Type) (number_truthy : number -> bool) (T : Type)
         (c : DriftClient) (net : Network number T) (m p : jsstring)
         (b : jsval number) (rt : Runtime number),
  exists init,
    fetches (trace (snd (request number_truthy c net m p b rt))) =
      fetches (trace rt) ++ [(baseUrl c ++ p, init)]
    /\ header (lit "Content-Type") (headers init) =
       (if truthy number_truthy b then Some (lit "application/json") else None)
    /\ header (lit "Authorization") (headers init) =
       match apiKey c with
       | Some key => if isEmpty key then None else Some (lit "Bearer " ++ key)
       | None => None
       end.
Proof.
  intros number nt T c net m p b rt.
  eexists. split; [apply request_fetches|].
  unfold requestHeaders. cbn [headers].
  destruct (truthy nt b); destruct (apiKey c) as [key|];
    rewrite ?truthy_string; try destruct key; split; reflexivity.
Qed.

(** C7 as stated fails: with the empty string as body and the empty string
    as configured API key, both present, the call carries no header at all
    (and no body). *)
Lemma C7_counterexample :
  apiKey (constructor empty_key) = Some []
  /\ fetches (trace (snd (request integer_truthy (constructor empty_key)
                            (@Fails Z unit) (lit "POST")
                            (lit "/api/v1/drift/route") (VStr []) boot)))
     = [ (lit "http://localhost:3000/api/v1/drift/route",
          {| method := lit "POST"; headers := []; body := None;
             signal := Some 0%nat |}) ].
Proof. split; reflexivity. Qed.

(** C9.  As amended: the client stores the configured base URL with one
    final slash removed, if there is one, so that a base URL that does not end
    in a slash and the same base URL followed by one slash give the same
    request URL for every path; it stores the API key as configured and the
    timeout as configured or 10000; and every request is made from these
    stored values. *)
Theorem C9_constructor :
  forall cfg : Config.DriftConfig,
    let c := constructor cfg in
    (forall b, Config.baseUrl cfg = b ++ lit "/" -> baseUrl c = b)
    /\ (endsWithSlash (Config.baseUrl cfg) = false ->
        baseUrl c = Config.baseUrl cfg)
    /\ (forall (cfg' : Config.DriftConfig) (path : jsstring),
           endsWithSlash (Config.baseUrl cfg') = false ->
           Config.baseUrl cfg = Config.baseUrl cfg' ++ lit "/" ->
           baseUrl c ++ path = baseUrl (constructor cfg') ++ path)
    /\ apiKey c = Config.apiKey cfg
    /\ timeout c = match Config.timeout cfg with
                   | Some t => t
                   | None => 10000%Z
                   end
    /\ (forall (number : Type) (number_truthy : number -> bool) (T : Type)
               (net : Network number T) (m p : jsstring) (b : jsval number)
               (rt : Runtime number),
           urls (trace (snd (request number_truthy c net m p b rt))) =
             urls (trace rt) ++ [baseUrl c ++ p]
           /\ In (TimerSet {| timer_id := S (next_id rt);
                              handler := controller_abort (next_id rt);
                              delay := timeout c |})
                 (trace (snd (request number_truthy c net m p b rt)))).
Proof.
  intros cfg c. subst c.
  split; [|split; [|split; [|split; [|split]]]].
  - intros b Hb. unfold constructor. cbn [baseUrl]. rewrite Hb.
    apply dropLastSlash_snoc.
  - apply dropLastSlash_other.
  - intros cfg' path Hno Hb. unfold constructor. cbn [baseUrl]. rewrite Hb.
    change (lit "/") with [47].
    now rewrite dropLastSlash_snoc, dropLastSlash_other.
  - reflexivity.
  - reflexivity.
  - intros number nt T net m p b rt. split.
    + apply request_urls.
    + apply request_arms_timer.
Qed.

Lemma C9_constructor_witness :
  Config.baseUrl one_slash = Config.baseUrl localhost ++ lit "/"
  /\ endsWithSlash (Config.baseUrl localhost) = false
  /\ baseUrl (constructor one_slash) ++ lit "/api/v1/drift/route"
     = baseUrl (constructor localhost) ++ lit "/api/v1/drift/route"
  /\ baseUrl (constructor one_slash) = lit "http://localhost:3000"
  /\ timeout (constructor one_slash) = 10000%Z.
Proof.
  split; [reflexivity|]. split; [reflexivity|]. split; [|split].
  - apply (proj1 (proj2 (proj2 (C9_constructor one_slash)))); reflexivity.
  - apply (proj1 (C9_constructor one_slash)). reflexivity.
  - apply (proj1 (proj2 (proj2 (proj2 (proj2 (C9_constructor one_slash)))))).
Defined.

(** C9 as stated fails on base URLs that end in more than one slash: of two
    base URLs that differ by one final slash, the longer keeps a slash that
    the shorter loses, and the request URLs differ. *)
Lemma C9_counterexample :
  Config.baseUrl two_slashes = Config.baseUrl one_slash ++ lit "/"
  /\ baseUrl (constructor two_slashes) = lit "http://localhost:3000/"
  /\ baseUrl (constructor one_slash) = lit "http://localhost:3000"
  /\ baseUrl (constructor two_slashes) ++ lit "/api/v1/drift/route"
     <> baseUrl (constructor one_slash) ++ lit "/api/v1/drift/route".
Proof. repeat split; discriminate. Qed.

(** C1.  What the code does instead: whatever the [hosted] flag, set or
    not, a client of the hosted gateway sends each of the six operations to
    the path with its [/api/v1] prefix. *)
Theorem C1_prefix_kept_on_hosted_gateway :
  forall (number : Type) (number_truthy : number -> bool)
         (RouteResult Branch FactsResult FR MR : Type)
         (key : option jsstring) (ms : option Z) (flag : option bool)
         (rt : Runtime number) (id content : jsstring) (role : option Role)
         (arg : SystemPromptOrOptions)
         (net1 : Network number RouteResult)
         (net2 : Network number (list Branch))
         (net3 : Network number (Context.t FR MR))
         (net4 : Network number FactsResult)
         (net5 : Network number (list (Fact.t FR))),
    let c := constructor {| Config.baseUrl := lit "https://api.driftos.dev";
                            Config.apiKey := key;
                            Config.timeout := ms;
                            Config.hosted := flag |} in
    let gateway := lit "https://api.driftos.dev" in
    urls (trace (snd (route number_truthy c net1 id content role rt))) =
      urls (trace rt) ++ [gateway ++ lit "/api/v1/drift/route"]
    /\ urls (trace (snd (getBranches number_truthy c net2 id rt))) =
       urls (trace rt) ++ [gateway ++ lit "/api/v1/drift/branches/" ++ id]
    /\ urls (trace (snd (getContext number_truthy c net3 id rt))) =
       urls (trace rt) ++ [gateway ++ lit "/api/v1/context/" ++ id]
    /\ urls (trace (snd (extractFacts number_truthy c net4 id rt))) =
       urls (trace rt)
       ++ [gateway ++ lit "/api/v1/facts/" ++ id ++ lit "/extract"]
    /\ urls (trace (snd (getFacts number_truthy c net5 id rt))) =
       urls (trace rt) ++ [gateway ++ lit "/api/v1/facts/" ++ id]
    /\ urls (trace (snd (buildPrompt number_truthy c net3 id arg rt))) =
       urls (trace rt) ++ [gateway ++ lit "/api/v1/context/" ++ id].
Proof.
  intros. subst c gateway.
  unfold route, getBranches, getContext, extractFacts, getFacts, buildPrompt,
    getContext.
  rewrite bind_ret_state, !request_urls.
  repeat split; reflexivity.
Qed.

(** * Further properties of the transport *)

Section MoreTransportFacts.

Variable number : Type.
Variable number_truthy : number -> bool.

(** The complete result of a call whose network does not stall: the timer
    is set, [fetch] is called, the timer is cleared; nothing is aborted. *)
Lemma request_without_stall {T : Type} (c : DriftClient)
    (net : Network number T) (m p : jsstring) (b : jsval number)
    (rt : Runtime number) :
  stalls net = false ->
  snd (request number_truthy c net m p b rt) =
  {| next_id := S (S (next_id rt));
     armed := filter (fun t => negb (Nat.eqb (timer_id t) (S (next_id rt))))
                (armed rt);
     aborted := aborted rt;
     trace :=
       trace rt ++
       [ TimerSet {| timer_id := S (next_id rt);
                     handler := controller_abort (next_id rt);
                     delay := timeout c |};
         FetchCalled (baseUrl c ++ p)
           {| method := m;
              headers := requestHeaders number_truthy c b;
              body := if truthy number_truthy b
                      then Some (JSON_stringify b) else None;
              signal := Some (next_id rt) |};
         TimerCleared (S (next_id rt)) ] |}.
Proof.
  by_cases net; try discriminate; intros _; run_request;
    try split_on_failure; simpl; rewrite ?Nat.eqb_refl; simpl;
    rewrite <- ?app_assoc; reflexivity.
Qed.

Lemma requestHeaders_truthy (c : DriftClient) (b : jsval number) :
  truthy number_truthy b = true ->
  requestHeaders number_truthy c b =
  (lit "Content-Type", lit "application/json") :: authorization c.
Proof.
  intros Hb. unfold requestHeaders, authorization. rewrite Hb.
  destruct (apiKey c) as [key|]; [|reflexivity].
  rewrite truthy_string. now destruct (isEmpty key).
Qed.

Lemma requestHeaders_falsy (c : DriftClient) (b : jsval number) :
  truthy number_truthy b = false ->
  requestHeaders number_truthy c b = authorization c.
Proof.
  intros Hb. unfold requestHeaders, authorization. rewrite Hb.
  destruct (apiKey c) as [key|]; [|reflexivity].
  rewrite truthy_string. now destruct (isEmpty key).
Qed.

End MoreTransportFacts.

(** X1.  [request] returns a value only when the reply has an ok status and
    its body parses to an object whose [success] is truthy; the value is then
    the [data] of that object. *)
Theorem X1_returns_only_on_success :
  forall (number : Type) (number_truthy : number -> bool) (T : Type)
         (c : DriftClient) (net : Network number T) (m p : jsstring)
         (b : jsval number) (rt : Runtime number) (d : T),
    fst (request number_truthy c net m p b rt) = Returned d ->
    exists (st : N) (e : Envelope number T),
      net = Responds {| ok := true; status := st;
                        reply_body := Json (JsonObject e) |}
      /\ truthy number_truthy (success e) = true
      /\ d = data e.
Proof.
  intros number nt T c net m p b rt d.
  destruct net as [[k st [ | |[ | |e]]] | | ];
    try (run_request; discriminate).
  rewrite request_on_envelope.
  destruct k; simpl; [|discriminate].
  destruct (truthy nt (success e)) eqn:Hsuccess; simpl; [|discriminate].
  intros Hd. injection Hd as <-. now exists st, e.
Qed.

Lemma X1_returns_only_on_success_witness :
  fst (request integer_truthy (constructor localhost)
         (Responds (success_reply paris)) (lit "GET")
         (lit "/api/v1/context/b1") VUndefined boot) = Returned paris
  /\ exists (st : N) (e : Envelope Z (Context.t unit unit)),
       Responds (success_reply paris) =
       Responds {| ok := true; status := st;
                   reply_body := Json (JsonObject e) |}
       /\ truthy integer_truthy (success e) = true
       /\ paris = data e.
Proof.
  split; [reflexivity|].
  apply (X1_returns_only_on_success integer_truthy (constructor localhost)
           (Responds (success_reply paris)) (lit "GET")
           (lit "/api/v1/context/b1") VUndefined boot).
  reflexivity.
Defined.

(** X2.  The checks of lines 49 to 53, run on the parsed value: they return
    only on an ok status, for an object whose [success] is truthy, and what
    they return is its [data] property as it is, [undefined] when the object
    has none. *)
Theorem X2_returns_what_data_holds :
  forall (number : Type) (number_truthy : number -> bool)
         (k : bool) (st : N) (d v : jsval number),
    unwrap_json number_truthy k st d = Returned v ->
    k = true
    /\ exists fields,
         d = VObj fields
         /\ truthy number_truthy (property (lit "success") fields) = true
         /\ v = property (lit "data") fields.
Proof.
  intros number nt k st d v. unfold unwrap_json.
  destruct k; cbn [negb and_then].
  - destruct d as [ | |b|n|s|items|fields]; cbn [get and_then];
      try discriminate.
    destruct (truthy nt (property (lit "success") fields)) eqn:Hsuccess;
      cbn [negb and_then]; [|discriminate].
    intros [= <-]. split; [reflexivity|]. now exists fields.
  - destruct d; cbn [get and_then]; discriminate.
Qed.

Lemma X2_returns_what_data_holds_witness :
  unwrap_json integer_truthy true 200
    (VObj [(lit "success", VBool true)]) = Returned VUndefined
  /\ exists fields,
       VObj [(lit "success", @VBool Z true)] = VObj fields
       /\ truthy integer_truthy (property (lit "success") fields) = true
       /\ VUndefined = property (lit "data") fields.
Proof.
  split; [reflexivity|].
  apply (@X2_returns_what_data_holds Z integer_truthy true 200
           (VObj [(lit "success", VBool true)]) VUndefined).
  reflexivity.
Defined.

(** X3.  The same checks on a parsed value that is no object: on [null] they
    throw a type error, whatever the status; on a string, a number, a boolean
    or an array they throw [Request failed: ] and the status code, even when
    the status is ok. *)
Theorem X3_json_without_envelope :
  forall (number : Type) (number_truthy : number -> bool)
         (k : bool) (st : N),
    unwrap_json number_truthy k st VNull = Thrown TypeError
    /\ forall d : jsval number,
         match d with
         | VBool _ | VNum _ | VStr _ | VArr _ =>
             unwrap_json number_truthy k st d
             = Thrown (Error (VStr (lit "Request failed: " ++ decimal st)))
         | _ => True
         end.
Proof.
  intros number nt k st. split.
  - destruct k; reflexivity.
  - intros d. destruct d; try exact I; destruct k; reflexivity.
Qed.

(** X4.  On a failure, if the [error] of the envelope is not an object (for
    instance a plain string), or is an object whose [message] is [null] or
    missing, the
    error thrown carries [Request failed: ] and the status code: what the
    server sent as [error] is not reported. *)
Theorem X4_error_that_is_no_object :
  forall (number : Type) (number_truthy : number -> bool) (T : Type)
         (c : DriftClient) (m p : jsstring) (b : jsval number)
         (rt : Runtime number) (k : bool) (st : N) (e : Envelope number T),
    k = false \/ truthy number_truthy (success e) = false ->
    (forall fields, error e = VObj fields ->
                    property (lit "message") fields = VNull
                    \/ property (lit "message") fields = VUndefined) ->
    fst (request number_truthy c
           (Responds {| ok := k; status := st;
                        reply_body := Json (JsonObject e) |}) m p b rt)
    = Thrown (Error (VStr (lit "Request failed: " ++ decimal st))).
Proof.
  intros number nt T c m p b rt k st e Hfailed Herror.
  rewrite request_on_envelope.
  assert (Hif : negb k || negb (truthy nt (success e)) = true)
    by (destruct Hfailed as [-> | ->]; rewrite ?orb_true_r; reflexivity).
  rewrite Hif. unfold optional_message.
  destruct (error e) as [ | | | | |items|fields]; try reflexivity.
  now destruct (Herror fields eq_refl) as [-> | ->].
Qed.

Lemma X4_error_that_is_no_object_witness :
  (false = false \/ truthy integer_truthy (success string_error) = false)
  /\ error string_error = VStr (lit "boom")
  /\ fst (request integer_truthy (constructor localhost)
            (Responds {| ok := false; status := 500;
                         reply_body := Json (JsonObject string_error) |})
            (lit "GET") (lit "/api/v1/facts/b1") VUndefined boot)
     = Thrown (Error (VStr (lit "Request failed: 500"))).
Proof.
  split; [now left|]. split; [reflexivity|].
  apply (X4_error_that_is_no_object integer_truthy (constructor localhost)
           (lit "GET") (lit "/api/v1/facts/b1") VUndefined boot
           (k := false) 500 string_error).
  - now left.
  - intros fields Hfields. discriminate Hfields.
Defined.

(** X5.  On a status that is not ok the call never returns, whatever the
    envelope: even with [success] true and [data] present it throws, with
    [error.message] as its message when there is one, and otherwise, as for
    an ordinary success envelope, with [Request failed: ] and the status
    code. *)
Theorem X5_status_overrides_success :
  forall (number : Type) (number_truthy : number -> bool) (T : Type)
         (c : DriftClient) (m p : jsstring) (b : jsval number)
         (rt : Runtime number) (st : N) (e : Envelope number T),
    fst (request number_truthy c
           (Responds {| ok := false; status := st;
                        reply_body := Json (JsonObject e) |}) m p b rt)
    = Thrown (Error (match optional_message (error e) with
                     | VUndefined | VNull =>
                         VStr (lit "Request failed: " ++ decimal st)
                     | message => message
                     end)).
Proof.
  intros number nt T c m p b rt st e.
  rewrite request_on_envelope. cbn [negb orb]. unfold nullish_or.
  destruct (optional_message (error e)); reflexivity.
Qed.

Lemma X5_status_overrides_success_witness :
  fst (request integer_truthy (constructor localhost)
         (Responds {| ok := false; status := 503;
                      reply_body := Json (JsonObject (success_envelope paris)) |})
         (lit "GET") (lit "/api/v1/context/b1") VUndefined boot)
  = Thrown (Error (VStr (lit "Request failed: 503")))
  /\ fst (request integer_truthy (constructor localhost)
            (Responds {| ok := false; status := 503;
                         reply_body := Json (JsonObject mixed) |})
            (lit "GET") (lit "/api/v1/facts/b1") VUndefined boot)
     = Thrown (Error (VStr (lit "Upstream down"))).
Proof.
  split.
  - rewrite (X5_status_overrides_success integer_truthy (constructor localhost)
               (lit "GET") (lit "/api/v1/context/b1") VUndefined boot 503
               (success_envelope paris)).
    reflexivity.
  - rewrite (X5_status_overrides_success integer_truthy (constructor localhost)
               (lit "GET") (lit "/api/v1/facts/b1") VUndefined boot 503 mixed).
    reflexivity.
Defined.

(** X6.  The outcome of a call does not depend on the state of the run time
    it starts from: nothing of an earlier call, whether it returned, failed
    or timed out, changes what a later call returns or throws. *)
Theorem X6_outcome_ignores_history :
  forall (number : Type) (number_truthy : number -> bool) (T : Type)
         (c : DriftClient) (net : Network number T) (m p : jsstring)
         (b : jsval number) (rt rt' : Runtime number),
    fst (request number_truthy c net m p b rt)
    = fst (request number_truthy c net m p b rt').
Proof.
  intros number nt T c net m p b rt rt'.
  by_cases net; run_request; try split_on_failure; reflexivity.
Qed.

(** X7.  A call whose network does not stall aborts nothing: it takes two
    fresh identifiers, adds to the trace the setting of its timer, one call
    of [fetch] and the clearing of its timer, and leaves the aborted
    controllers as they were. *)
Theorem X7_no_abort_without_stall :
  forall (number : Type) (number_truthy : number -> bool) (T : Type)
         (c : DriftClient) (net : Network number T) (m p : jsstring)
         (b : jsval number) (rt : Runtime number),
    stalls net = false ->
    let final := snd (request number_truthy c net m p b rt) in
    aborted final = aborted rt
    /\ next_id final = S (S (next_id rt))
    /\ exists init,
         trace final =
         trace rt ++
         [ TimerSet {| timer_id := S (next_id rt);
                       handler := controller_abort (next_id rt);
                       delay := timeout c |};
           FetchCalled (baseUrl c ++ p) init;
           TimerCleared (S (next_id rt)) ].
Proof.
  intros number nt T c net m p b rt Hnet final. subst final.
  rewrite (request_without_stall nt c net m p b rt Hnet). simpl.
  repeat split. eexists. reflexivity.
Qed.

Lemma X7_no_abort_without_stall_witness :
  stalls (@Fails Z unit) = false
  /\ aborted (snd (request integer_truthy (constructor localhost)
                     (@Fails Z unit) (lit "GET") (lit "/api/v1/facts/b1")
                     VUndefined boot)) = [].
Proof.
  split; [reflexivity|].
  apply (X7_no_abort_without_stall integer_truthy (constructor localhost)
           (@Fails Z unit) (lit "GET") (lit "/api/v1/facts/b1") VUndefined
           boot).
  reflexivity.
Defined.

(** X8.  [route] always posts the JSON object of its three arguments to
    [/api/v1/drift/route] with the content type set, also when the
    conversation id or the content is the empty string; and leaving the role
    out is the same as giving [user]. *)
Theorem X8_route_request :
  forall (number : Type) (number_truthy : number -> bool) (RouteResult : Type)
         (c : DriftClient) (net : Network number RouteResult)
         (conversationId content : jsstring) (role : option Role)
         (rt : Runtime number),
    fetches (trace (snd (route number_truthy c net conversationId content
                           role rt))) =
    fetches (trace rt) ++
    [ (baseUrl c ++ lit "/api/v1/drift/route",
       {| method := lit "POST";
          headers := (lit "Content-Type", lit "application/json")
                       :: authorization c;
          body := Some (JSON_stringify
                          (VObj [ (lit "conversationId", VStr conversationId);
                                  (lit "content", VStr content);
                                  (lit "role",
                                   VStr (match role with
                                         | Some assistant => lit "assistant"
                                         | _ => lit "user"
                                         end)) ]));
          signal := Some (next_id rt) |}) ]
    /\ route number_truthy c net conversationId content None rt
       = route number_truthy c net conversationId content (Some user) rt.
Proof.
  intros number nt RouteResult c net conversationId content role rt.
  split; [|reflexivity].
  unfold route. rewrite request_fetches.
  rewrite requestHeaders_truthy by reflexivity.
  destruct role as [[|]|]; reflexivity.
Qed.

(** X9.  The four operations that take only an identifier send no body and
    no content type: [getBranches], [getContext] and [getFacts] are a [GET]
    and [extractFacts] is a [POST], each of the path made of the prefix and
    the identifier as it is given. *)
Theorem X9_operations_without_body :
  forall (number : Type) (number_truthy : number -> bool)
         (Branch FactsResult FR MR : Type) (c : DriftClient)
         (id : jsstring) (rt : Runtime number)
         (net2 : Network number (list Branch))
         (net3 : Network number (Context.t FR MR))
         (net4 : Network number FactsResult)
         (net5 : Network number (list (Fact.t FR))),
    let sent (verb path : jsstring) :=
      fetches (trace rt) ++
      [ (baseUrl c ++ path,
         {| method := verb; headers := authorization c; body := None;
            signal := Some (next_id rt) |}) ] in
    fetches (trace (snd (getBranches number_truthy c net2 id rt)))
      = sent (lit "GET") (lit "/api/v1/drift/branches/" ++ id)
    /\ fetches (trace (snd (getContext number_truthy c net3 id rt)))
       = sent (lit "GET") (lit "/api/v1/context/" ++ id)
    /\ fetches (trace (snd (extractFacts number_truthy c net4 id rt)))
       = sent (lit "POST") (lit "/api/v1/facts/" ++ id ++ lit "/extract")
    /\ fetches (trace (snd (getFacts number_truthy c net5 id rt)))
       = sent (lit "GET") (lit "/api/v1/facts/" ++ id).
Proof.
  intros. subst sent.
  unfold getBranches, getContext, extractFacts, getFacts.
  rewrite !request_fetches, requestHeaders_falsy by reflexivity.
  repeat split; reflexivity.
Qed.

(** X10.  Identifiers are put into the path as they are, with no encoding:
    [getFacts] on an identifier that ends in [/extract] asks for the very URL
    that [extractFacts] posts to for the identifier without that ending. *)
Theorem X10_identifiers_not_encoded :
  forall (number : Type) (number_truthy : number -> bool)
         (FactsResult FR : Type) (c : DriftClient) (id : jsstring)
         (rt : Runtime number)
         (net4 : Network number FactsResult)
         (net5 : Network number (list (Fact.t FR))),
    urls (trace (snd (getFacts number_truthy c net5 (id ++ lit "/extract") rt)))
    = urls (trace (snd (extractFacts number_truthy c net4 id rt))).
Proof.
  intros. unfold getFacts, extractFacts. now rewrite !request_urls.
Qed.

(** X11.  With the facts and the other topics both left out, [allFacts] is
    never read: the prompt depends on the topic and the messages of the
    context only, and a context without [allFacts] gives a prompt like any
    other. *)
Theorem X11_allFacts_unread_when_excluded :
  forall (number : Type) (number_truthy : number -> bool)
         (number_toString : number -> jsstring)
         (fields fields' : list (jsstring * jsval number)) (o : Options.t)
         (template' : option (jsval number -> jsstring)),
    includeFacts o = false ->
    includeOtherTopics o = false ->
    property (lit "branchTopic") fields = property (lit "branchTopic") fields' ->
    property (lit "messages") fields = property (lit "messages") fields' ->
    assemble_json number_truthy number_toString (VObj fields) o template'
    = assemble_json number_truthy number_toString (VObj fields') o template'.
Proof.
  intros number nt nts fields fields' o template' Hfacts Htopics Htopic Hmsgs.
  unfold assemble_json. cbn [get].
  now rewrite Hfacts, Htopics, Htopic, Hmsgs.
Qed.

Lemma X11_allFacts_unread_when_excluded_witness :
  includeFacts bare = false
  /\ includeOtherTopics bare = false
  /\ assemble_json integer_truthy integer_toString no_allFacts bare None
     = assemble_json integer_truthy integer_toString no_facts bare None
  /\ assemble_json integer_truthy integer_toString no_allFacts bare None
     = Returned
         {| json_system :=
              lit "You are a helpful assistant." ++ LF
              ++ lit "Current topic: Paris trip planning";
            json_messages := [] |}.
Proof.
  split; [reflexivity|]. split; [reflexivity|]. split; [|reflexivity].
  apply (X11_allFacts_unread_when_excluded integer_truthy integer_toString
           [(lit "branchTopic", VStr (lit "Paris trip planning"));
            (lit "messages", VArr [])]
           _ bare None);
    reflexivity.
Defined.

(** * Further properties of the prompt assembler and of the constructor *)

Section MoreAssemblerFacts.

Variables FR : Type.

Lemma Subsequence_refl {A : Type} (l : list A) : Subsequence l l.
Proof. induction l; constructor; assumption. Qed.

Lemma Subsequence_app {A : Type} (xs ys xs' ys' : list A) :
  Subsequence xs ys -> Subsequence xs' ys' ->
  Subsequence (xs ++ xs') (ys ++ ys').
Proof.
  induction 1 as [|y xs ys _ IH|x xs ys _ IH]; simpl; intros H'.
  - exact H'.
  - apply sub_skip, IH, H'.
  - apply sub_keep, IH, H'.
Qed.

Lemma Subsequence_skip_prefix {A : Type} (zs xs ys : list A) :
  Subsequence xs ys -> Subsequence xs (zs ++ ys).
Proof.
  intros H. induction zs as [|z zs IH]; simpl; [exact H|].
  apply sub_skip, IH.
Qed.

Lemma current_only_among_all (sets : list (BranchFactSet.t FR)) :
  Subsequence (spec_selectFacts false sets) (spec_selectFacts true sets).
Proof.
  induction sets as [|b sets IH]; simpl; [constructor|].
  destruct (BranchFactSet.isCurrent b).
  - apply Subsequence_app; [apply Subsequence_refl | exact IH].
  - apply Subsequence_skip_prefix, IH.
Qed.

Lemma all_branches_selected (sets : list (BranchFactSet.t FR)) :
  spec_selectFacts true sets =
  flat_map (fun b => spec_pairs (BranchFactSet.facts b)) sets.
Proof. induction sets as [|b sets IH]; simpl; [|rewrite IH]; reflexivity. Qed.

Lemma topics_and_current (sets : list (BranchFactSet.t FR)) :
  (List.length (spec_topics sets)
   + List.length (filter (fun b => BranchFactSet.isCurrent b) sets)
   = List.length sets)%nat.
Proof.
  induction sets as [|b sets IH]; simpl; [reflexivity|].
  destruct (BranchFactSet.isCurrent b); simpl; rewrite <- IH.
  - now rewrite Nat.add_succ_r.
  - reflexivity.
Qed.

End MoreAssemblerFacts.

Section TrimFacts.

Lemma trimStart_is_suffix (s : jsstring) :
  exists w, s = w ++ trimStart s.
Proof.
  induction s as [|c s [w IH]]; simpl.
  - now exists [].
  - destruct (is_white c).
    + exists (c :: w). simpl. now rewrite <- IH.
    + now exists [].
Qed.

Lemma trimEnd_is_prefix (s : jsstring) :
  exists w, s = trimEnd s ++ w.
Proof.
  unfold trimEnd. destruct (trimStart_is_suffix (rev s)) as [w Hw].
  exists (rev w).
  rewrite <- rev_app_distr, <- Hw. now rewrite rev_involutive.
Qed.

Lemma trimStart_head (s : jsstring) (c : code_unit) :
  hd_error (trimStart s) = Some c -> is_white c = false.
Proof.
  induction s as [|x s IH]; simpl; [discriminate|].
  destruct (is_white x) eqn:Hx; [exact IH|].
  simpl. intros [= <-]. exact Hx.
Qed.

(** What [trim] returns neither begins nor ends with white space. *)
Lemma trim_edges (s : jsstring) (c : code_unit) :
  (hd_error (trim s) = Some c -> is_white c = false)
  /\ (hd_error (rev (trim s)) = Some c -> is_white c = false).
Proof.
  unfold trim. split.
  - destruct (trimEnd_is_prefix (trimStart s)) as [w Hw].
    destruct (trimEnd (trimStart s)) as [|x t] eqn:E; [discriminate|].
    simpl. intros [= <-]. apply (trimStart_head s).
    rewrite Hw. reflexivity.
  - unfold trimEnd. rewrite rev_involutive. apply trimStart_head.
Qed.

Lemma trimStart_fixed (s : jsstring) :
  (forall c, hd_error s = Some c -> is_white c = false) -> trimStart s = s.
Proof.
  destruct s as [|x s]; [reflexivity|].
  intros H. simpl. now rewrite (H x eq_refl).
Qed.

Lemma trim_idempotent (s : jsstring) : trim (trim s) = trim s.
Proof.
  unfold trim at 1.
  rewrite (trimStart_fixed (trim s))
    by (intros c; apply (proj1 (trim_edges s c))).
  unfold trimEnd.
  rewrite (trimStart_fixed (rev (trim s)))
    by (intros c; apply (proj2 (trim_edges s c))).
  apply rev_involutive.
Qed.

(** A part of a string that begins and ends with something other than white
    space survives [trimStart], and so [trim], where it is. *)
Lemma trimStart_keeps_core (a core b : jsstring) (x : code_unit) :
  hd_error core = Some x -> is_white x = false ->
  exists a', trimStart (a ++ core ++ b) = a' ++ core ++ b.
Proof.
  intros Hhd Hx. induction a as [|y a [a' IH]]; simpl.
  - exists []. destruct core as [|z core]; [discriminate|].
    injection Hhd as ->. simpl. now rewrite Hx.
  - destruct (is_white y).
    + now exists a'.
    + now exists (y :: a).
Qed.

Lemma trim_keeps_core (a core b : jsstring) (x y : code_unit) :
  hd_error core = Some x -> is_white x = false ->
  hd_error (rev core) = Some y -> is_white y = false ->
  exists a' b', trim (a ++ core ++ b) = a' ++ core ++ b'.
Proof.
  intros Hx Hwx Hy Hwy. unfold trim.
  destruct (trimStart_keeps_core a core b Hx Hwx) as [a' ->].
  unfold trimEnd. rewrite !rev_app_distr, <- app_assoc.
  destruct (trimStart_keeps_core (rev b) (rev core) (rev a') Hy Hwy)
    as [b' ->].
  exists a', (rev b').
  now rewrite !rev_app_distr, !rev_involutive, <- app_assoc.
Qed.

Lemma endsWithSlash_iff (s : jsstring) :
  endsWithSlash s = true <-> exists b, s = b ++ [47].
Proof.
  unfold endsWithSlash. split.
  - destruct (rev s) as [|c r] eqn:E; [discriminate|].
    intros Hc. apply N.eqb_eq in Hc. subst c. exists (rev r).
    rewrite <- (rev_involutive s), E. reflexivity.
  - intros [b ->]. rewrite rev_app_distr. reflexivity.
Qed.

End TrimFacts.

(** X12.  When other topics are included there is one of them for every set
    that is not current, repeated topics included: their number and the
    number of current sets add up to the number of sets. *)
Theorem X12_other_topics_count :
  forall (FR MR : Type) (ctx : Context.t FR MR) (o : Options.t),
    includeOtherTopics o = true ->
    (List.length (otherTopics ctx o)
     + List.length (filter (fun b => BranchFactSet.isCurrent b)
                      (Context.allFacts ctx))
     = List.length (Context.allFacts ctx))%nat.
Proof.
  intros FR MR ctx o Hinc.
  rewrite otherTopics_spec, Hinc. apply topics_and_current.
Qed.

Lemma X12_other_topics_count_witness :
  includeOtherTopics (options Omitted) = true
  /\ (List.length (otherTopics paris (options Omitted)) + 1 = 2)%nat.
Proof.
  split; [reflexivity|].
  exact (X12_other_topics_count paris (options Omitted) eq_refl).
Defined.

(** X13.  With facts included, the facts selected for the current branch
    only are those selected for all branches with some left out, in the same
    order; and for all branches they are the facts of every set, set after
    set. *)
Theorem X13_current_facts_among_all :
  forall (FR MR : Type) (ctx : Context.t FR MR) (o o' : Options.t),
    includeFacts o = true -> includeFacts o' = true ->
    factsFromAllBranches o = false -> factsFromAllBranches o' = true ->
    Subsequence (factsToInclude ctx o) (factsToInclude ctx o')
    /\ factsToInclude ctx o' =
       flat_map (fun b => map (@keyValue FR) (BranchFactSet.facts b))
         (Context.allFacts ctx).
Proof.
  intros FR MR ctx o o' Hinc Hinc' Hcurrent Hall.
  rewrite !factsToInclude_spec, Hinc, Hinc', Hcurrent, Hall. split.
  - apply current_only_among_all.
  - rewrite all_branches_selected. apply flat_map_ext.
    intros b. symmetry. apply keyValue_pairs.
Qed.

Lemma X13_current_facts_among_all_witness :
  factsToInclude paris_and_budget Options.empty =
    [ {| KeyValue.key := lit "destination"; KeyValue.value := lit "Paris" |} ]
  /\ factsToInclude paris_and_budget all_branches =
     [ {| KeyValue.key := lit "budget"; KeyValue.value := lit "2000 EUR" |};
       {| KeyValue.key := lit "destination"; KeyValue.value := lit "Paris" |} ]
  /\ Subsequence (factsToInclude paris_and_budget Options.empty)
       (factsToInclude paris_and_budget all_branches).
Proof.
  split; [reflexivity|]. split; [reflexivity|].
  exact (proj1 (X13_current_facts_among_all paris_and_budget
                  Options.empty all_branches
                  eq_refl eq_refl eq_refl eq_refl)).
Defined.

(** X14.  With [includeFacts] false the option [factsFromAllBranches] has no
    effect on the prompt, with a template or without. *)
Theorem X14_excluded_facts_ignore_branches :
  forall (FR MR : Type) (ctx : Context.t FR MR)
         (prompt : option jsstring) (topics : option bool)
         (fromAll fromAll' : option bool)
         (template : option (TemplateContext.t -> jsstring)),
    assemble ctx (OptionsObject
      {| Options.systemPrompt := prompt;
         Options.includeOtherTopics := topics;
         Options.includeFacts := Some false;
         Options.factsFromAllBranches := fromAll;
         Options.template := template |})
    = assemble ctx (OptionsObject
      {| Options.systemPrompt := prompt;
         Options.includeOtherTopics := topics;
         Options.includeFacts := Some false;
         Options.factsFromAllBranches := fromAll';
         Options.template := template |}).
Proof.
  intros FR MR ctx prompt topics fromAll fromAll' template.
  destruct template as [template|]; reflexivity.
Qed.

(** X15.  Under the default template the system string always contains the
    label [Current topic:], whatever the system prompt and the topic; it
    neither begins nor ends with white space, and trimming it again changes
    nothing. *)
Theorem X15_default_system_shape :
  forall (FR MR : Type) (ctx : Context.t FR MR) (arg : SystemPromptOrOptions),
    Options.template (options arg) = None ->
    let text := Prompt.system (assemble ctx arg) in
    includes (lit "Current topic:") text = true
    /\ (forall c, hd_error text = Some c -> is_white c = false)
    /\ (forall c, hd_error (rev text) = Some c -> is_white c = false)
    /\ trim text = text.
Proof.
  intros FR MR ctx arg Hnone text. subst text.
  unfold assemble. cbn [Prompt.system].
  rewrite (system_default ctx _ Hnone). unfold spec_defaultSystem.
  split; [|split; [|split]].
  - change (lit "Current topic: ") with (lit "Current topic:" ++ lit " ").
    set (rest := spec_afterLabel _ _ _ _ _).
    replace (systemPrompt (options arg) ++ LF
             ++ (lit "Current topic:" ++ lit " ") ++ rest)
      with ((systemPrompt (options arg) ++ LF)
            ++ lit "Current topic:" ++ (lit " " ++ rest))
      by (now rewrite <- !app_assoc).
    destruct (trim_keeps_core (systemPrompt (options arg) ++ LF)
                (lit "Current topic:") (lit " " ++ rest)
                (x := 67) (y := 58) eq_refl eq_refl eq_refl eq_refl)
      as (a' & b' & ->).
    apply includes_app.
  - intros c. apply trim_edges.
  - intros c. apply trim_edges.
  - apply trim_idempotent.
Qed.

Lemma X15_default_system_shape_witness :
  Options.template (options (LegacyString (lit "  "))) = None
  /\ Prompt.system (assemble blank (LegacyString (lit "  ")))
     = lit "Current topic:"
  /\ includes (lit "Current topic:")
       (Prompt.system (assemble blank (LegacyString (lit "  ")))) = true.
Proof.
  split; [reflexivity|]. split; [reflexivity|].
  exact (proj1 (X15_default_system_shape blank (LegacyString (lit "  "))
                  eq_refl)).
Defined.

(** X16.  The constructor changes the base URL by at most one final slash:
    what was configured is what is stored, or that followed by one slash; and
    the stored base URL still ends in a slash exactly when the configured one
    ended in two. *)
Theorem X16_at_most_one_slash :
  forall cfg : Config.DriftConfig,
    (Config.baseUrl cfg = baseUrl (constructor cfg)
     \/ Config.baseUrl cfg = baseUrl (constructor cfg) ++ lit "/")
    /\ (endsWithSlash (baseUrl (constructor cfg)) = true
        <-> exists b, Config.baseUrl cfg = b ++ lit "//").
Proof.
  intros cfg. unfold constructor. cbn [baseUrl].
  destruct (endsWithSlash (Config.baseUrl cfg)) eqn:E.
  - apply endsWithSlash_iff in E as [s Hs]. rewrite Hs, dropLastSlash_snoc.
    split; [now right|].
    rewrite endsWithSlash_iff. split.
    + intros [b ->]. exists b. now rewrite <- app_assoc.
    + intros [b Hb]. exists b.
      change (lit "//") with ([47] ++ [47]) in Hb.
      rewrite app_assoc in Hb. now apply app_inj_tail in Hb as [-> _].
  - rewrite (dropLastSlash_other _ E). split; [now left|].
    rewrite E. split; [discriminate|].
    intros [b Hb].
    assert (Hends : endsWithSlash (Config.baseUrl cfg) = true).
    { apply endsWithSlash_iff. exists (b ++ [47]).
      now rewrite Hb, <- app_assoc. }
    congruence.
Qed.

Section MoreShapeFacts.

Variables FR : Type.

Lemma trimEnd_after_label (z : jsstring) :
  exists t, trimEnd (lit "Current topic:" ++ z) = lit "Current topic:" ++ t.
Proof.
  destruct (existsb nonwhite z) eqn:E.
  - exists (trimEnd z). now apply trimEnd_keeps_prefix.
  - exists []. now rewrite trimEnd_white_suffix.
Qed.

Lemma all_current_selects_all (sets : list (BranchFactSet.t FR)) :
  forallb (fun b => BranchFactSet.isCurrent b) sets = true ->
  spec_selectFacts false sets = spec_selectFacts true sets
  /\ spec_topics sets = [].
Proof.
  induction sets as [|b sets IH]; simpl; [auto|].
  intros H. apply andb_true_iff in H as [Hb Hs]. rewrite Hb.
  destruct (IH Hs) as [-> ->]. auto.
Qed.

End MoreShapeFacts.

(** X17.  Under the default template, a system prompt made of white space
    only leaves no trace: the system string begins with [Current topic:].  A
    system prompt with anything else in it loses its leading white space and
    nothing more, and the label follows it on the next line. *)
Theorem X17_system_prompt_white_space :
  forall (FR MR : Type) (ctx : Context.t FR MR) (arg : SystemPromptOrOptions),
    Options.template (options arg) = None ->
    let prompt := systemPrompt (options arg) in
    let text := Prompt.system (assemble ctx arg) in
    (existsb nonwhite prompt = false ->
       startsWith (lit "Current topic:") text = true)
    /\ (existsb nonwhite prompt = true ->
          startsWith (trimStart prompt ++ LF ++ lit "Current topic:") text
          = true).
Proof.
  intros FR MR ctx arg Hnone prompt text. subst prompt text.
  unfold assemble. cbn [Prompt.system].
  rewrite (system_default ctx _ Hnone). unfold spec_defaultSystem, trim.
  set (rest := spec_afterLabel _ _ _ _ _).
  split; intros Hprompt.
  - rewrite trimStart_white_prefix
      by (now rewrite all_white_or_not, Hprompt).
    change (trimStart (LF ++ lit "Current topic: " ++ rest))
      with (lit "Current topic:" ++ lit " " ++ rest).
    destruct (trimEnd_after_label (lit " " ++ rest)) as [t ->].
    apply startsWith_app.
  - rewrite (trimStart_keeps_suffix _ _ Hprompt).
    change (lit "Current topic: " ++ rest)
      with (lit "Current topic:" ++ lit " " ++ rest).
    replace (trimStart (systemPrompt (options arg)) ++ LF
             ++ lit "Current topic:" ++ lit " " ++ rest)
      with ((trimStart (systemPrompt (options arg)) ++ LF)
            ++ lit "Current topic:" ++ lit " " ++ rest)
      by (now rewrite <- app_assoc).
    rewrite trimEnd_keeps_prefix by reflexivity.
    destruct (trimEnd_after_label (lit " " ++ rest)) as [t ->].
    rewrite app_assoc, (app_assoc _ (lit "Current topic:") t).
    rewrite <- (app_assoc _ LF). apply startsWith_app.
Qed.

Lemma X17_system_prompt_white_space_witness :
  Options.template (options (LegacyString (lit "  Be brief."))) = None
  /\ existsb nonwhite (systemPrompt (options (LegacyString (lit "  Be brief."))))
     = true
  /\ startsWith (lit "Be brief." ++ LF ++ lit "Current topic:")
       (Prompt.system (assemble paris (LegacyString (lit "  Be brief."))))
     = true.
Proof.
  split; [reflexivity|]. split; [reflexivity|].
  exact (proj2 (X17_system_prompt_white_space paris
                  (LegacyString (lit "  Be brief.")) eq_refl) eq_refl).
Defined.

(** X18.  A call sends a body exactly when it sends the content type: never
    one without the other. *)
Theorem X18_content_type_with_body :
  forall (number : Type) (number_truthy : number -> bool) (T : Type)
         (c : DriftClient) (net : Network number T) (m p : jsstring)
         (b : jsval number) (rt : Runtime number),
  exists init,
    fetches (trace (snd (request number_truthy c net m p b rt))) =
      fetches (trace rt) ++ [(baseUrl c ++ p, init)]
    /\ (body init = None <->
        header (lit "Content-Type") (headers init) = None)
    /\ (body init = Some (JSON_stringify b) <->
        header (lit "Content-Type") (headers init)
        = Some (lit "application/json")).
Proof.
  intros number nt T c net m p b rt.
  eexists. split; [apply request_fetches|]. cbn [body headers].
  destruct (truthy nt b) eqn:Hb.
  - rewrite (requestHeaders_truthy nt c b Hb). simpl.
    split; split; intros; (reflexivity || discriminate).
  - rewrite (requestHeaders_falsy nt c b Hb). unfold authorization.
    destruct (apiKey c) as [key|]; [destruct (isEmpty key)|]; simpl;
      split; split; intros; (reflexivity || discriminate).
Qed.

(** X19.  When every set is marked current (more than one, or all), the
    facts selected for the current branch are those selected for all
    branches, and there are no other topics. *)
Theorem X19_every_set_current :
  forall (FR MR : Type) (ctx : Context.t FR MR) (o o' : Options.t),
    forallb (fun b => BranchFactSet.isCurrent b) (Context.allFacts ctx)
    = true ->
    includeFacts o = includeFacts o' ->
    factsFromAllBranches o = false -> factsFromAllBranches o' = true ->
    factsToInclude ctx o = factsToInclude ctx o'
    /\ otherTopics ctx o = [].
Proof.
  intros FR MR ctx o o' Hall Hinc Hcurrent Hfrom.
  destruct (all_current_selects_all _ Hall) as [Hfacts Htopics].
  rewrite !factsToInclude_spec, otherTopics_spec, Hinc, Hcurrent, Hfrom,
    Hfacts, Htopics.
  split; [reflexivity|]. now destruct (includeOtherTopics o).
Qed.

Lemma X19_every_set_current_witness :
  forallb (fun b => BranchFactSet.isCurrent b) (Context.allFacts both_current)
  = true
  /\ List.length (factsToInclude both_current Options.empty) = 2%nat
  /\ factsToInclude both_current Options.empty
     = factsToInclude both_current all_branches
  /\ otherTopics both_current Options.empty = [].
Proof.
  split; [reflexivity|]. split; [reflexivity|].
  exact (X19_every_set_current both_current Options.empty all_branches
           eq_refl eq_refl eq_refl eq_refl).
Defined.
